(** * Base Tornado handlers of the notebook server: a shallow embedding

    This development embeds [IPython/html/base/handlers.py] in Rocq and
    proves properties of its handlers: the login-cookie helpers, the CORS
    header policy, the error renderers, the static-file resolvers and the
    redirect rules.

    Python [str] values are modelled as [string], dictionaries as [gmap],
    [None]-able values as [option], and a handler method as a state and
    exception computation over the part of the response it touches. *)

From Stdlib Require Import String Ascii List ZArith Bool Lia.
From stdpp Require Import base gmap strings list pretty.

Open Scope string_scope.

(** ** Python string primitives used by the handlers *)

Module Py.

(** [s.startswith(p)] *)
Definition startswith (s p : string) : bool := String.prefix p s.

(** [c * n] for a one-character string [c] *)
Fixpoint repeat_char (c : ascii) (n : nat) : string :=
  match n with
  | O => ""
  | S n' => String c (repeat_char c n')
  end.

(** [s.rstrip(c)] for a one-character argument: every trailing [c] goes. *)
Fixpoint rstrip (c : ascii) (s : string) : string :=
  match s with
  | "" => ""
  | String a s' =>
      match rstrip c s' with
      | "" => if Ascii.eqb a c then "" else String a ""
      | r => String a r
      end
  end.

(** [s.endswith(c)] for a one-character argument *)
Fixpoint endswith_char (s : string) (c : ascii) : bool :=
  match s with
  | "" => false
  | String a "" => Ascii.eqb a c
  | String _ s' => endswith_char s' c
  end.

(** [s.split(c)] for a one-character separator; never the empty list. *)
Fixpoint split (c : ascii) (s : string) : list string :=
  match s with
  | "" => [""]
  | String a s' =>
      if Ascii.eqb a c then "" :: split c s'
      else match split c s' with
           | [] => [String a ""]
           | w :: ws => String a w :: ws
           end
  end.

(** [sep.join(parts)] *)
Definition join (sep : string) (parts : list string) : string :=
  String.concat sep parts.

(** [parts[-1]] of a list produced by [split] *)
Definition last_part (parts : list string) : string := List.last parts "".

(** [parts[:-1]] *)
Definition but_last (parts : list string) : list string := removelast parts.

(** [x in parts] *)
Definition contains (x : string) (parts : list string) : bool :=
  existsb (String.eqb x) parts.

(** [parts.remove(x)]: drops the first occurrence only. The handlers call
    it under an [x in parts] test, so the [ValueError] of a missing element
    is not modelled. *)
Fixpoint remove_first (x : string) (parts : list string) : list string :=
  match parts with
  | [] => []
  | p :: ps => if String.eqb x p then ps else p :: remove_first x ps
  end.

(** The character class [[A-Za-z0-9]] *)
Definition is_alnum (a : ascii) : bool :=
  let n := nat_of_ascii a in
  ((48 <=? n)%nat && (n <=? 57)%nat)
  || ((65 <=? n)%nat && (n <=? 90)%nat)
  || ((97 <=? n)%nat && (n <=? 122)%nat).

(** [re.compile(r'[^A-Za-z0-9]').sub(repl, s)] for a one-character [repl] *)
Fixpoint sub_non_alphanum (repl : ascii) (s : string) : string :=
  match s with
  | "" => ""
  | String a s' =>
      String (if is_alnum a then a else repl) (sub_non_alphanum repl s')
  end.

(** [s[n:]] *)
Fixpoint slice_from (n : nat) (s : string) : string :=
  match n, s with
  | O, _ => s
  | S n', String _ s' => slice_from n' s'
  | S _, "" => ""
  end.

(** Every character of [s] satisfies [p]. *)
Fixpoint all_chars (p : ascii -> bool) (s : string) : bool :=
  match s with
  | "" => true
  | String a s' => p a && all_chars p s'
  end.

(** [s[:n]] *)
Fixpoint slice_to (n : nat) (s : string) : string :=
  match n, s with
  | O, _ => ""
  | S n', String a s' => String a (slice_to n' s')
  | S _, "" => ""
  end.

(** Index of the first [c] in [s], if any *)
Fixpoint index_of (c : ascii) (s : string) : option nat :=
  match s with
  | "" => None
  | String a s' =>
      if Ascii.eqb a c then Some 0
      else match index_of c s' with
           | Some i => Some (S i)
           | None => None
           end
  end.

(** Index of the last [c] in [s], if any *)
Fixpoint rindex_of (c : ascii) (s : string) : option nat :=
  match s with
  | "" => None
  | String a s' =>
      match rindex_of c s' with
      | Some i => Some (S i)
      | None => if Ascii.eqb a c then Some 0 else None
      end
  end.

(** [s.find(c)] for a one-character argument: [-1] when [c] is absent. *)
Definition find (c : ascii) (s : string) : Z :=
  match index_of c s with
  | Some i => Z.of_nat i
  | None => (-1)%Z
  end.

(** [s.rfind(c)] for a one-character argument: [-1] when [c] is absent. *)
Definition rfind (c : ascii) (s : string) : Z :=
  match rindex_of c s with
  | Some i => Z.of_nat i
  | None => (-1)%Z
  end.

(** [s.endswith(suffix)] *)
Fixpoint endswith (s suffix : string) : bool :=
  String.eqb s suffix
  || match s with
     | "" => false
     | String _ s' => endswith s' suffix
     end.

(** [s.lstrip()] on bytes: leading ASCII white space goes. *)
Fixpoint lstrip_space (s : string) : string :=
  match s with
  | "" => ""
  | String a s' => if Ascii.is_space a then lstrip_space s' else s
  end.

(** [s.rstrip()] on bytes: trailing ASCII white space goes. *)
Fixpoint rstrip_space (s : string) : string :=
  match s with
  | "" => ""
  | String a s' =>
      match rstrip_space s' with
      | "" => if Ascii.is_space a then "" else String a ""
      | r => String a r
      end
  end.

(** [s.strip()] on bytes *)
Definition strip (s : string) : string := lstrip_space (rstrip_space s).

End Py.

(** ** Exceptions and results *)

(** The exceptions the module raises or catches. [HTTPError] is
    [tornado.web.HTTPError(status_code, log_message, *args, reason=...)];
    [UnboundLocalError] is Python's subclass of [NameError];
    [NonException] stands for the [BaseException]s that are not
    [Exception]s ([KeyboardInterrupt], [SystemExit], [GeneratorExit]). *)
Inductive exn : Type :=
| HTTPError (status_code : Z) (log_message : option string)
            (args : list string) (reason : option string)
| UnboundLocalError (name : string)
| TemplateNotFound (name : string)
| IOError (msg : string)
| OtherException (cls : string) (msg : string)
| NonException (cls : string).

(** [web.HTTPError(code)] *)
Definition HTTPError_code (code : Z) : exn := HTTPError code None [] None.

(** [isinstance(e, Exception)] *)
Definition is_Exception (e : exn) : bool :=
  match e with
  | NonException _ => false
  | _ => true
  end.

(** [isinstance(e, NameError)] *)
Definition is_NameError (e : exn) : bool :=
  match e with
  | UnboundLocalError _ => true
  | _ => false
  end.

Inductive result (A : Type) : Type :=
| Return (a : A)
| Raise (e : exn).
Arguments Return {A} a.
Arguments Raise {A} e.

(** ** The handler monad

    A handler method runs against the mutable part of a Tornado
    [RequestHandler] (status, response headers, written chunks, the chunk
    given to [finish], cookies cleared, the redirect issued) and the
    application log; it returns a value or raises. Effects made before a
    [raise] stay in the state. *)

Inductive log_entry : Type :=
| Log (level : string) (fmt : string) (args : list string).

Record state : Type := mkState {
  status : Z;
  headers : gmap string string;
  written : list string;
  finished : option string;
  cleared_cookies : list string;
  redirected : option string;
  log : list log_entry
}.

(** A fresh handler: status 200, nothing set, written or logged. *)
Definition initial_state : state :=
  {| status := 200; headers := ∅; written := []; finished := None;
     cleared_cookies := []; redirected := None; log := [] |}.

Definition M (A : Type) : Type := state -> result A * state.

Definition ret {A} (a : A) : M A := fun st => (Return a, st).

Definition raise {A} (e : exn) : M A := fun st => (Raise e, st).

Definition bind {A B} (m : M A) (k : A -> M B) : M B :=
  fun st =>
    match m st with
    | (Return a, st') => k a st'
    | (Raise e, st') => (Raise e, st')
    end.

(** [try: m except <handles>: handler(e)]; an exception the clause does not
    name goes on. *)
Definition try_except {A} (m : M A) (handles : exn -> bool)
    (handler : exn -> M A) : M A :=
  fun st =>
    match m st with
    | (Return a, st') => (Return a, st')
    | (Raise e, st') => if handles e then handler e st' else (Raise e, st')
    end.

Declare Scope handler_scope.
Delimit Scope handler_scope with handler.
Notation "x <- m ;; k" := (bind m (fun x => k))
  (at level 100, m at next level, right associativity) : handler_scope.
Notation "m ;;; k" := (bind m (fun _ => k))
  (at level 100, right associativity) : handler_scope.
Open Scope handler_scope.

(** [self.set_header(name, value)] on a handler that takes the header:
    replaces an earlier value. [set_header_on] below is the call on a
    handler that may refuse it. *)
Definition set_header (name value : string) : M unit :=
  fun st =>
    (Return tt,
     {| status := status st; headers := <[name := value]> (headers st);
        written := written st; finished := finished st;
        cleared_cookies := cleared_cookies st; redirected := redirected st;
        log := log st |}).

(** [self.set_header(name, value)] on a handler whose Tornado class may
    refuse the call: [refusal name value] is the exception it raises
    ([Exception("Method not supported for Web Sockets")] on a WebSocket
    handler, a [ValueError] for an unsafe value), [None] when the header is
    taken. [set_header] above is the case of a handler that refuses
    nothing. *)
Definition set_header_on (refusal : string -> string -> option exn)
    (name value : string) : M unit :=
  match refusal name value with
  | None => set_header name value
  | Some e => raise e
  end.

(** [self.set_status(code)] *)
Definition set_status (code : Z) : M unit :=
  fun st =>
    (Return tt,
     {| status := code; headers := headers st;
        written := written st; finished := finished st;
        cleared_cookies := cleared_cookies st; redirected := redirected st;
        log := log st |}).

(** [self.write(chunk)] *)
Definition write (chunk : string) : M unit :=
  fun st =>
    (Return tt,
     {| status := status st; headers := headers st;
        written := written st ++ [chunk]; finished := finished st;
        cleared_cookies := cleared_cookies st; redirected := redirected st;
        log := log st |}).

(** [self.finish(chunk)] *)
Definition finish (chunk : string) : M unit :=
  fun st =>
    (Return tt,
     {| status := status st; headers := headers st;
        written := written st; finished := Some chunk;
        cleared_cookies := cleared_cookies st; redirected := redirected st;
        log := log st |}).

(** [self.clear_cookie(name)] *)
Definition clear_cookie (name : string) : M unit :=
  fun st =>
    (Return tt,
     {| status := status st; headers := headers st;
        written := written st; finished := finished st;
        cleared_cookies := cleared_cookies st ++ [name];
        redirected := redirected st; log := log st |}).

(** [self.redirect(url)]: the URL handed to Tornado is recorded. *)
Definition redirect (url : string) : M unit :=
  fun st =>
    (Return tt,
     {| status := status st; headers := headers st;
        written := written st; finished := finished st;
        cleared_cookies := cleared_cookies st; redirected := Some url;
        log := log st |}).

(** [self.log.<level>(fmt, *args)] *)
Definition log_msg (level fmt : string) (args : list string) : M unit :=
  fun st =>
    (Return tt,
     {| status := status st; headers := headers st;
        written := written st; finished := finished st;
        cleared_cookies := cleared_cookies st; redirected := redirected st;
        log := log st ++ [Log level fmt args] |}).

(** ** Settings and request *)

(** A compiled regular expression, seen through [pat.match(s) is not None]. *)
Definition pattern : Type := string -> bool.

(** The entries of [self.settings] the handlers read; [None] is an absent
    key, for which each property supplies its own default. *)
Record settings : Type := mkSettings {
  s_headers : option (gmap string string);
  s_cookie_name : option string;
  s_password : option string;
  s_allow_origin : option string;
  s_allow_origin_pat : option pattern;
  s_allow_credentials : option bool;
  s_base_url : option string
}.

(** No key set. *)
Definition empty_settings : settings :=
  {| s_headers := None; s_cookie_name := None; s_password := None;
     s_allow_origin := None; s_allow_origin_pat := None;
     s_allow_credentials := None; s_base_url := None |}.

(** [self.request]: host, URI, path, headers, and what
    [get_secure_cookie(name)] yields for each cookie name ([None] when the
    cookie is missing or its signature is invalid). *)
Record request : Type := mkRequest {
  host : string;
  uri : string;
  req_path : string;
  req_headers : gmap string string;
  secure_cookie : string -> option string
}.

(** [os.sep] on the POSIX hosts the server runs on *)
Definition os_sep : ascii := "/"%char.

(** ** AuthenticatedHandler *)

Module AuthenticatedHandler.

(** The dictionary the header loop walks: [settings.get('headers', {})]
    with ["X-Frame-Options"] defaulted to ["SAMEORIGIN"]. *)
Definition configured_headers (s : settings) : gmap string string :=
  let headers := default ∅ (s_headers s) in
  match headers !! "X-Frame-Options" with
  | Some _ => headers
  | None => <["X-Frame-Options" := "SAMEORIGIN"]> headers
  end.

(** The settings with [h] as their header dictionary. *)
Definition settings_with_headers (s : settings) (h : gmap string string)
    : settings :=
  {| s_headers := Some h; s_cookie_name := s_cookie_name s;
     s_password := s_password s; s_allow_origin := s_allow_origin s;
     s_allow_origin_pat := s_allow_origin_pat s;
     s_allow_credentials := s_allow_credentials s;
     s_base_url := s_base_url s |}.

(** The settings after [headers["X-Frame-Options"] = "SAMEORIGIN"]:
    [headers] is the dictionary held in the settings when they have one,
    so the assignment writes into the settings themselves; with no
    ['headers'] key the dictionary is a fresh [{}] and the settings stay
    as they are. *)
Definition settings_after_default (s : settings) : settings :=
  match s_headers s with
  | Some _ => settings_with_headers s (configured_headers s)
  | None => s
  end.

(** The loop [for header_name, value in headers.items(): try:
    self.set_header(header_name, value) except Exception: pass] *)
Definition header_loop (refusal : string -> string -> option exn)
    (items : list (string * string)) : M unit :=
  foldr
    (fun (item : string * string) (k : M unit) =>
       try_except (set_header_on refusal item.1 item.2) is_Exception
                  (fun _ => ret tt) ;;; k)
    (ret tt)
    items.

(** [set_default_headers], on the settings and the response together:
    the settings come back as the method leaves them. *)
Definition set_default_headers (refusal : string -> string -> option exn)
    (s : settings) (st : state) : result unit * (settings * state) :=
  let headers := configured_headers s in
  let s' := settings_after_default s in
  let '(res, st') := header_loop refusal (map_to_list headers) st in
  (res, (s', st')).

(** The [cookie_name] property *)
Definition cookie_name (s : settings) (r : request) : string :=
  let default_cookie_name :=
    Py.sub_non_alphanum "-" ("username-" +:+ host r) in
  default default_cookie_name (s_cookie_name s).

(** The [password] property *)
Definition password (s : settings) : string := default "" (s_password s).

(** The [login_available] property: [bool(settings.get('password', ''))] *)
Definition login_available (s : settings) : bool :=
  negb (String.eqb (default "" (s_password s)) "").

Definition clear_login_cookie (s : settings) (r : request) : M unit :=
  clear_cookie (cookie_name s r).

(** [get_current_user]; the result [None] is Python's [None]. *)
Definition get_current_user (s : settings) (r : request)
    : M (option string) :=
  let user_id := secure_cookie r (cookie_name s r) in
  let user_id :=
    if decide (user_id = Some "") then Some "anonymous" else user_id in
  user_id <-
    match user_id with
    | None =>
        clear_login_cookie s r ;;;
        ret (if negb (login_available s) then Some "anonymous" else user_id)
    | Some _ => ret user_id
    end ;;
  ret user_id.

(** The [logged_in] property: [user and not user == 'anonymous'], read as
    a truth value. *)
Definition logged_in (s : settings) (r : request) : M bool :=
  user <- get_current_user s r ;;
  ret match user with
      | None => false
      | Some u => negb (String.eqb u "") && negb (String.eqb u "anonymous")
      end.

End AuthenticatedHandler.

(** ** IPythonHandler *)

Module IPythonHandler.

Definition base_url (s : settings) : string := default "/" (s_base_url s).

Definition allow_origin (s : settings) : string :=
  default "" (s_allow_origin s).

Definition allow_origin_pat (s : settings) : option pattern :=
  s_allow_origin_pat s.

Definition allow_credentials (s : settings) : bool :=
  default false (s_allow_credentials s).

(** [get_origin]: the [Origin] header when the request has one, else the
    [Sec-Websocket-Origin] header, else [None]. *)
Definition get_origin (r : request) : option string :=
  match req_headers r !! "Origin" with
  | Some origin => Some origin
  | None => req_headers r !! "Sec-Websocket-Origin"
  end.

(** Truth value of a string: non-empty. *)
Definition truthy (x : string) : bool := negb (String.eqb x "").

(** The CORS part of [set_default_headers], after the [super] call; its
    [set_header] calls stand under no [try]. *)
Definition set_cors_headers (refusal : string -> string -> option exn)
    (s : settings) (r : request) : M unit :=
  (if truthy (allow_origin s) then
     set_header_on refusal "Access-Control-Allow-Origin" (allow_origin s)
   else
     match allow_origin_pat s with
     | Some pat =>
         match get_origin r with
         | Some origin =>
             if truthy origin && pat origin then
               set_header_on refusal "Access-Control-Allow-Origin" origin
             else ret tt
         | None => ret tt
         end
     | None => ret tt
     end) ;;;
  (if allow_credentials s then
     set_header_on refusal "Access-Control-Allow-Credentials" "true"
   else ret tt).

Definition set_default_headers (refusal : string -> string -> option exn)
    (s : settings) (r : request) (st : state)
    : result unit * (settings * state) :=
  match AuthenticatedHandler.set_default_headers refusal s st with
  | (Return _, (s', st')) =>
      let '(res, st'') := set_cors_headers refusal s' r st' in
      (res, (s', st''))
  | (Raise e, after) => (Raise e, after)
  end.

(** The template namespace [write_error] builds. *)
Record namespace : Type := mkNamespace {
  ns_status_code : Z;
  ns_status_message : string;
  ns_message : string;
  ns_exception : exn
}.

(** Reading a local variable: [None] is a name no assignment has bound
    yet, and reading it raises [UnboundLocalError]. *)
Definition read_local {A} (name : string) (v : option A) : M A :=
  match v with
  | Some a => ret a
  | None => raise (UnboundLocalError name)
  end.

Definition is_TemplateNotFound (e : exn) : bool :=
  match e with
  | TemplateNotFound _ => true
  | _ => false
  end.

Section WriteError.

(** [http.client.responses], the table of reason phrases *)
Variable responses : Z -> option string.
(** [fmt % args]; [None] when the formatting raises *)
Variable percent_format : string -> list string -> option string.
(** [self.render_template(name, **ns)] *)
Variable render_template : string -> namespace -> M string.

(** [exception.log_message % exception.args] under [try ... except
    Exception: pass]: a missing attribute or a failed formatting leaves
    [message] as it was. *)
Definition custom_message (message : string) (exception : exn) : string :=
  match exception with
  | HTTPError _ (Some log_message) args _ =>
      default message (percent_format log_message args)
  | _ => message
  end.

(** [getattr(exception, 'reason', '')] *)
Definition getattr_reason (exception : exn) : string :=
  match exception with
  | HTTPError _ _ _ (Some reason) => reason
  | _ => ""
  end.

(** [write_error(status_code, **kwargs)]; [exc_info] is
    [kwargs.get('exc_info')], seen through the exception value
    [exc_info[1]]. *)
Definition write_error (status_code : Z) (exc_info : option exn)
    : M unit :=
  let message := "" in
  let status_message :=
    default "Unknown HTTP Error" (responses status_code) in
  let '(exception, message, status_message) :=
    match exc_info with
    | Some e =>
        let exception := e in
        let message := custom_message message exception in
        let reason := getattr_reason exception in
        (Some exception, message,
         if truthy reason then reason else status_message)
    | None => (None, message, status_message)
    end in
  exception <- read_local "exception" exception ;;
  let ns :=
    {| ns_status_code := status_code;
       ns_status_message := status_message;
       ns_message := message;
       ns_exception := exception |} in
  set_header "Content-Type" "text/html" ;;;
  html <- try_except
            (render_template (pretty status_code +:+ ".html") ns)
            is_TemplateNotFound
            (fun _ =>
               log_msg "debug" "No template for %d" [pretty status_code] ;;;
               render_template "error.html" ns) ;;
  write html.

End WriteError.

Section JsonBody.

(** What [json.loads] returns *)
Variable Model : Type.
(** [bytes.decode('utf-8')] and [json.loads], either of which may raise *)
Variable decode_utf8 : string -> result string.
Variable json_loads : string -> result Model.

(** [get_json_body] for the request body [request_body]; the result
    [None] is Python's [None]. The decoding stands outside the [try]. *)
Definition get_json_body (request_body : string) : M (option Model) :=
  if String.eqb request_body "" then ret None
  else
    body <- (fun st => (decode_utf8 (Py.strip request_body), st)) ;;
    model <- try_except
               (fun st => (json_loads body, st))
               is_Exception
               (fun _ =>
                  log_msg "debug" "Bad JSON: %r" [body] ;;;
                  log_msg "error" "Couldn't parse JSON" [] ;;;
                  raise (HTTPError 400
                           (Some "Invalid JSON in body of request") [] None)) ;;
    ret (Some model).

End JsonBody.

End IPythonHandler.


(** ** AuthenticatedFileHandler *)

Module AuthenticatedFileHandler.

(** Modelled from the spec: [is_hidden] of [IPython.html.utils] is not part
    of this module. A path is hidden when a component of it, anywhere from
    the root down to the target, begins with the hidden-file marker (a
    leading dot). *)
Definition is_hidden (abs_path abs_root : string) : bool :=
  let inside_root := Py.slice_from (String.length abs_root) abs_path in
  existsb (fun part => Py.startswith part ".") (Py.split os_sep inside_root).

Section Validate.

(** [web.StaticFileHandler.validate_absolute_path], Tornado's own check *)
Variable super_validate_absolute_path : string -> string -> M string.
(** [os.path.abspath] *)
Variable abspath : string -> string.

Definition validate_absolute_path (root absolute_path : string) : M string :=
  abs_path <- super_validate_absolute_path root absolute_path ;;
  let abs_root := abspath root in
  if is_hidden abs_path abs_root then
    log_msg "info" "Refusing to serve hidden file, via 404 Error" [] ;;;
    raise (HTTPError_code 404)
  else ret abs_path.

End Validate.

(** The double quote character *)
Definition dquote : string := String "034"%char "".

(** The first statement of [get]: the path is cut at its last ['/'] into
    the name after it and the path before it; a path with no ['/'] is all
    name. The slices are taken only when [find] is above [-1], where
    [rfind] is a valid index. *)
Definition split_path (path : string) : string * string :=
  if (Py.find "/" path >? -1)%Z then
    (Py.slice_from (Z.to_nat (Py.rfind "/" path + 1)) path,
     Py.slice_to (Z.to_nat (Py.rfind "/" path)) path)
  else (path, "").

(** [self.flush()]: sends the chunks written so far; they stay recorded in
    [written]. *)
Definition flush : M unit := ret tt.

Section Get.

(** [cm.get_model(name, path)['content']] of the contents manager *)
Variable get_model_content : string -> string -> M string.

(** The body of [get], which Tornado's [web.authenticated] runs for a
    logged-in user. *)
Definition get (path : string) : M unit :=
  let '(name, path) := split_path path in
  (if Py.endswith name ".ipynb" then
     set_header "Content-Type" "application/json"
   else ret tt) ;;;
  set_header "Content-Disposition"
    ("attachment; filename=" +:+ dquote +:+ name +:+ dquote) ;;;
  content <- get_model_content name path ;;
  write content ;;;
  flush.

End Get.

(** [compute_etag]: no ETag is ever computed. *)
Definition compute_etag : option string := None.

End AuthenticatedFileHandler.

(** ** The [json_errors] decorator *)

Module JsonErrors.

(** The JSON values the decorator serialises: strings and [null], inside
    one flat object (a Python [dict] with string keys). *)
Inductive json : Type :=
| JNull
| JStr (s : string).

Definition json_object : Type := list (string * json).

(** [d[key]] of a JSON object *)
Definition json_get (key : string) (d : json_object) : option json :=
  snd <$> List.find (fun item => String.eqb key (fst item)) d.

(** A Python string or [None] as a JSON value *)
Definition json_of_message (message : option string) : json :=
  match message with
  | Some m => JStr m
  | None => JNull
  end.

Definition newline : string := String "010"%char "".

Section Decorator.

(** [json.dumps] *)
Variable json_dumps : json_object -> string.
(** [traceback.format_tb(tb)]: one entry per stack frame *)
Variable format_tb : exn -> list string.
(** [traceback.format_exception_only(type, value)] *)
Variable format_exception_only : exn -> list string.

(** [traceback.format_exception(t, value, tb)] inside an [except] clause,
    where the traceback [tb] is never [None]: the header line, the frames,
    the exception lines. *)
Definition format_exception (e : exn) : list string :=
  ("Traceback (most recent call last):" +:+ newline)
    :: format_tb e ++ format_exception_only e.

(** The reply of the [except Exception] clause *)
Definition unknown_error_reply (e : exn) : json_object :=
  let message := "Unknown server error" in
  let tb_text := Py.join "" (format_exception e) in
  [("message", JStr message); ("traceback", JStr tb_text)].

(** [wrapper(self, *args, **kwargs)] for the call [method(self, *args,
    **kwargs)]; the wrapper's own result is [None] on both error paths. *)
Definition json_errors {A} (method : M A) : M (option A) :=
  fun st =>
    match method st with
    | (Return result, st') => (Return (Some result), st')
    | (Raise (HTTPError status_code log_message _ _), st') =>
        (let message := log_message in
         log_msg "warn" (default "None" message) [] ;;;
         set_status status_code ;;;
         finish (json_dumps [("message", json_of_message message)]) ;;;
         ret None) st'
    | (Raise e, st') =>
        if is_Exception e then
          (log_msg "error" "Unhandled error in API request" [] ;;;
           let status := 500%Z in
           set_status status ;;;
           finish (json_dumps (unknown_error_reply e)) ;;;
           ret None) st'
        else (Raise e, st')
    end.

End Decorator.

End JsonErrors.

(** ** FileFindHandler *)

Module FileFindHandler.

(** The class attributes shared by every instance: the search cache
    [_static_paths], and, to count them, the directory searches made so far
    (requested path and roots of each [filefind] call). *)
Record class_state : Type := mkClass {
  _static_paths : gmap string string;
  searches : list (string * list string)
}.

Definition empty_class : class_state :=
  {| _static_paths := ∅; searches := [] |}.

Section Search.

(** [os.path.isfile] on the server's file system *)
Variable isfile : string -> bool.
(** [os.path.join] *)
Variable path_join : string -> string -> string.
(** [os.path.abspath] *)
Variable abspath : string -> string.

(** Modelled from the spec: [filefind] of [IPython.utils.path] is not part
    of this module. It searches the roots in order for a file matching the
    requested relative path; the first match wins, and no match is an
    [IOError], here [None]. *)
Fixpoint filefind (path : string) (roots : list string) : option string :=
  match roots with
  | [] => None
  | root :: roots' =>
      let testname := path_join root path in
      if isfile testname then Some testname
      else filefind path roots'
  end.

(** [get_absolute_path(cls, roots, path)]: the whole body runs under
    [cls._lock], so it is one atomic step on the class state. *)
Definition get_absolute_path (roots : list string) (path : string)
    (cls : class_state) : string * class_state :=
  match _static_paths cls !! path with
  | Some cached => (cached, cls)
  | None =>
      let searched :=
        {| _static_paths := _static_paths cls;
           searches := searches cls ++ [(path, roots)] |} in
      match filefind path roots with
      | None => ("", searched)
      | Some found =>
          let abspath_ := abspath found in
          (abspath_,
           {| _static_paths := <[path := abspath_]> (_static_paths searched);
              searches := searches searched |})
      end
  end.

End Search.

(** The loop [for root in self.root: if (absolute_path +
    os.sep).startswith(root): break]. The loop variable [root] shadows the
    argument: after the loop it is the root that matched, else the last
    root tried, else (no root at all) the argument itself. *)
Fixpoint loop_root (self_root : list string) (root absolute_path : string)
    : string :=
  match self_root with
  | [] => root
  | r :: rest =>
      if Py.startswith (absolute_path +:+ String os_sep "") r then r
      else loop_root rest r absolute_path
  end.

Section Validate.

(** [web.StaticFileHandler.validate_absolute_path], Tornado's own check *)
Variable super_validate_absolute_path : string -> string -> M string.

(** [self.root] is the tuple of separator-terminated roots. *)
Definition validate_absolute_path (self_root : list string)
    (root absolute_path : string) : M string :=
  if String.eqb absolute_path "" then raise (HTTPError_code 404)
  else
    let root := loop_root self_root root absolute_path in
    super_validate_absolute_path root absolute_path.

End Validate.

(** The [path] argument of [initialize]: one string or a list of them. *)
Inductive path_arg : Type :=
| OnePath (p : string)
| Paths (ps : list string).

(** The instance attributes [initialize] sets. *)
Record instance : Type := mkInstance {
  root : list string;
  default_filename : option string
}.

Section Initialize.

(** [os.path.abspath] and [os.path.expanduser] *)
Variable abspath : string -> string.
Variable expanduser : string -> string.

Definition initialize (path : path_arg) (default_filename : option string)
    : instance :=
  let path :=
    match path with
    | OnePath p => [p]
    | Paths ps => ps
    end in
  {| root :=
       List.map (fun p => abspath (expanduser p) +:+ String os_sep "") path;
     default_filename := default_filename |}.

End Initialize.

End FileFindHandler.

(** ** TrailingSlashHandler *)

Module TrailingSlashHandler.

Definition get (r : request) : M unit :=
  redirect (Py.rstrip "/" (uri r)).

End TrailingSlashHandler.

(** ** FilesRedirectHandler *)

Module FilesRedirectHandler.

Section Get.

(** [cm.path_exists(path)] of the contents manager *)
Variable path_exists : string -> bool.
(** [cm.file_exists(name=name, path=path)] *)
Variable file_exists : string -> string -> bool.
(** [url_path_join] (given its pieces as a list) and [url_escape] of
    [IPython.html.utils] *)
Variable url_path_join : list string -> string.
Variable url_escape : string -> string.

Definition get (s : settings) (r : request) (path : string) : M unit :=
  url <-
    (if path_exists path then
       ret (url_path_join [IPythonHandler.base_url s; "tree"; path])
     else
       let orig_path := path in
       let parts := Py.split "/" path in
       let path := Py.join "/" (Py.but_last parts) in
       let name := Py.last_part parts in
       path <-
         (if negb (file_exists name path) && Py.contains "files" parts then
            log_msg "warn" "Deprecated files/ URL: %s" [orig_path] ;;;
            let parts := Py.remove_first "files" parts in
            ret (Py.join "/" (Py.but_last parts))
          else ret path) ;;
       (if negb (file_exists name path) then raise (HTTPError_code 404)
        else ret tt) ;;;
       ret (url_path_join [IPythonHandler.base_url s; "files"; path; name]))
    ;;
  let url := url_escape url in
  log_msg "debug" "Redirecting %s to %s" [req_path r; url] ;;;
  redirect url.

End Get.

End FilesRedirectHandler.

(** ** Vocabulary of the statements *)

(** The request [r] with its URI replaced. *)
Definition with_uri (r : request) (u : string) : request :=
  {| host := host r; uri := u; req_path := req_path r;
     req_headers := req_headers r; secure_cookie := secure_cookie r |}.

(** The characters a sanitised cookie name is made of: [[A-Za-z0-9]] and
    ['-']. *)
Definition cookie_char (a : ascii) : bool :=
  Py.is_alnum a || Ascii.eqb a "-".

(** The request [r] with its host replaced. *)
Definition with_host (r : request) (h : string) : request :=
  {| host := h; uri := uri r; req_path := req_path r;
     req_headers := req_headers r; secure_cookie := secure_cookie r |}.

(** The class state after a run of [get_absolute_path] calls, each given
    by its roots and requested path, on one file system. *)
Definition resolve_all (isfile : string -> bool)
    (path_join : string -> string -> string) (abspath : string -> string)
    (calls : list (list string * string))
    (cls : FileFindHandler.class_state) : FileFindHandler.class_state :=
  foldl
    (fun cls (call : list string * string) =>
       (FileFindHandler.get_absolute_path isfile path_join abspath
          call.1 call.2 cls).2)
    cls calls.

(** The request [r] with its headers replaced. *)
Definition with_headers (r : request) (h : gmap string string) : request :=
  {| host := host r; uri := uri r; req_path := req_path r;
     req_headers := h; secure_cookie := secure_cookie r |}.

(** A handler that takes every header. *)
Definition accepts_all (name value : string) : option exn := None.

(** A WebSocket handler: Tornado raises a plain [Exception] on every
    [set_header]. *)
Definition websocket_refusal (name value : string) : option exn :=
  Some (OtherException "Exception" "Method not supported for Web Sockets").

(** * Properties *)

(** ** Strings *)

Lemma app_cons (a : ascii) (s t : string) :
  String a s +:+ t = String a (s +:+ t).
Proof. reflexivity. Qed.

Lemma app_empty_l (t : string) : "" +:+ t = t.
Proof. reflexivity. Qed.

Lemma app_empty_r (s : string) : s +:+ "" = s.
Proof. induction s as [|a s IH]; [reflexivity|]. by rewrite app_cons, IH. Qed.

Lemma app_assoc_str (s t u : string) : (s +:+ t) +:+ u = s +:+ (t +:+ u).
Proof.
  induction s as [|a s IH]; [reflexivity|]. by rewrite !app_cons, IH.
Qed.

Lemma rstrip_cons (c a : ascii) (s : string) :
  Py.rstrip c (String a s) =
  match Py.rstrip c s with
  | "" => if Ascii.eqb a c then "" else String a ""
  | r => String a r
  end.
Proof. reflexivity. Qed.

(** What [rstrip] removes is a run of the stripped character. *)
Lemma rstrip_decompose (c : ascii) (s : string) :
  exists n, s = Py.rstrip c s +:+ Py.repeat_char c n.
Proof.
  induction s as [|a s [n IH]].
  - by exists 0.
  - rewrite rstrip_cons. destruct (Py.rstrip c s) as [|b r] eqn:E.
    + destruct (Ascii.eqb a c) eqn:Eac.
      * apply Ascii.eqb_eq in Eac as ->. exists (S n).
        rewrite app_empty_l in *. simpl. by f_equal.
      * exists n. rewrite app_cons. by f_equal.
    + exists n. rewrite app_cons. by f_equal.
Qed.

(** What [rstrip] leaves does not end with the stripped character. *)
Lemma rstrip_not_endswith (c : ascii) (s : string) :
  Py.endswith_char (Py.rstrip c s) c = false.
Proof.
  induction s as [|a s IH]; [reflexivity|].
  rewrite rstrip_cons. destruct (Py.rstrip c s) as [|b r] eqn:E.
  - destruct (Ascii.eqb a c) eqn:Eac; simpl; [reflexivity|exact Eac].
  - exact IH.
Qed.

Lemma rstrip_repeat (c : ascii) (n : nat) :
  Py.rstrip c (Py.repeat_char c n) = "".
Proof.
  induction n as [|n IH]; [reflexivity|].
  simpl. rewrite IH. by rewrite Ascii.eqb_refl.
Qed.

Lemma rstrip_app_char (c : ascii) (s : string) :
  Py.rstrip c (s +:+ String c "") = Py.rstrip c s.
Proof.
  induction s as [|a s IH].
  - simpl. by rewrite Ascii.eqb_refl.
  - by rewrite app_cons, !rstrip_cons, IH.
Qed.

(** A string that does not end with [c] is left alone. *)
Lemma rstrip_fixed (c : ascii) (s : string) :
  Py.endswith_char s c = false -> Py.rstrip c s = s.
Proof.
  induction s as [|a s IH]; [reflexivity|].
  intros H. rewrite rstrip_cons. destruct s as [|b s].
  - simpl in *. by rewrite H.
  - rewrite IH by exact H. reflexivity.
Qed.

(** ** TrailingSlashHandler *)

(** C10. [TrailingSlashHandler.get] redirects to the whole request URI,
    query string included, with every trailing ['/'] removed: the URI is the
    target followed by a run of slashes and the target ends with none; a URI
    made of slashes only is redirected to the empty string; and a slash that
    ends a query string is stripped like any other. *)
Theorem trailing_slash_get_strips_whole_uri :
  (forall (r : request) (st : state),
      TrailingSlashHandler.get r st = redirect (Py.rstrip "/" (uri r)) st
      /\ (exists n, uri r = Py.rstrip "/" (uri r) +:+ Py.repeat_char "/" n)
      /\ Py.endswith_char (Py.rstrip "/" (uri r)) "/" = false)
  /\ (forall (r : request) (st : state) (n : nat),
         TrailingSlashHandler.get (with_uri r (Py.repeat_char "/" n)) st
         = redirect "" st)
  /\ (forall (r : request) (st : state) (path query : string),
         TrailingSlashHandler.get
           (with_uri r (path +:+ "?" +:+ query +:+ "/")) st
         = redirect (Py.rstrip "/" (path +:+ "?" +:+ query)) st).
Proof.
  split; [|split].
  - intros r st. split; [reflexivity|]. split.
    + apply rstrip_decompose.
    + apply rstrip_not_endswith.
  - intros r st n. unfold TrailingSlashHandler.get. simpl.
    by rewrite rstrip_repeat.
  - intros r st path query. unfold TrailingSlashHandler.get. simpl.
    f_equal.
    replace (path +:+ "?" +:+ query +:+ "/")
      with ((path +:+ "?" +:+ query) +:+ "/")
      by (by rewrite !app_assoc_str).
    apply rstrip_app_char.
Qed.

Example trailing_slash_root :
  redirected (TrailingSlashHandler.get (mkRequest "h" "/" "/" ∅ (fun _ => None))
                initial_state).2 = Some "".
Proof. reflexivity. Qed.

Example trailing_slash_query :
  redirected (TrailingSlashHandler.get
                (mkRequest "h" "/a/?next=/b/" "/a/" ∅ (fun _ => None))
                initial_state).2 = Some "/a/?next=/b".
Proof. reflexivity. Qed.

(** ** AuthenticatedHandler: the cookie name *)

Lemma sub_non_alphanum_chars (s : string) :
  Py.all_chars cookie_char (Py.sub_non_alphanum "-" s) = true.
Proof.
  induction s as [|a s IH]; [reflexivity|].
  simpl. rewrite IH, andb_true_r. unfold cookie_char.
  destruct (Py.is_alnum a) eqn:E; [by rewrite E|reflexivity].
Qed.

(** C8, as the claim states it, fails: a configured [cookie_name] is
    returned as it is, whatever characters it holds. *)
Lemma cookie_name_configured_not_sanitised :
  let s := {| s_headers := None; s_cookie_name := Some "my cookie";
              s_password := None; s_allow_origin := None;
              s_allow_origin_pat := None; s_allow_credentials := None;
              s_base_url := None |} in
  let r := mkRequest "localhost:8888" "/" "/" ∅ (fun _ => None) in
  AuthenticatedHandler.cookie_name s r = "my cookie"
  /\ Py.all_chars cookie_char (AuthenticatedHandler.cookie_name s r) = false.
Proof. split; reflexivity. Qed.

(** C8, amended. [cookie_name] is a function of the host and of the
    configured name alone. With no name configured it is ["username-"]
    followed by the host, every character outside [[A-Za-z0-9]] replaced by
    ['-'], so it holds only alphanumerics and ['-']; a configured name is
    returned unchanged. *)
Theorem cookie_name_of_host_and_config :
  (forall (s : settings) (r : request),
      s_cookie_name s = None ->
      AuthenticatedHandler.cookie_name s r
      = Py.sub_non_alphanum "-" ("username-" +:+ host r)
      /\ Py.all_chars cookie_char (AuthenticatedHandler.cookie_name s r)
         = true)
  /\ (forall (s : settings) (r : request) (name : string),
         s_cookie_name s = Some name ->
         AuthenticatedHandler.cookie_name s r = name)
  /\ (forall (s s' : settings) (r r' : request),
         host r = host r' ->
         s_cookie_name s = s_cookie_name s' ->
         AuthenticatedHandler.cookie_name s r
         = AuthenticatedHandler.cookie_name s' r').
Proof.
  unfold AuthenticatedHandler.cookie_name. split; [|split].
  - intros s r ->. simpl. split; [reflexivity|apply sub_non_alphanum_chars].
  - by intros s r name ->.
  - by intros s s' r r' -> ->.
Qed.

Lemma cookie_name_of_host_and_config_witness :
  AuthenticatedHandler.cookie_name empty_settings
    (mkRequest "localhost:8888" "/" "/" ∅ (fun _ => None))
  = "username-localhost-8888"
  /\ AuthenticatedHandler.cookie_name
       {| s_headers := None; s_cookie_name := Some "my cookie";
          s_password := None; s_allow_origin := None;
          s_allow_origin_pat := None; s_allow_credentials := None;
          s_base_url := None |}
       (mkRequest "localhost:8888" "/" "/" ∅ (fun _ => None))
     = "my cookie".
Proof.
  split.
  - exact (proj1 (proj1 cookie_name_of_host_and_config empty_settings
                    (mkRequest "localhost:8888" "/" "/" ∅ (fun _ => None))
                    eq_refl)).
  - exact (proj1 (proj2 cookie_name_of_host_and_config)
             {| s_headers := None; s_cookie_name := Some "my cookie";
                s_password := None; s_allow_origin := None;
                s_allow_origin_pat := None; s_allow_credentials := None;
                s_base_url := None |}
             (mkRequest "localhost:8888" "/" "/" ∅ (fun _ => None))
             "my cookie" eq_refl).
Defined.

(** ** AuthenticatedHandler: the current user *)

(** C7. [get_current_user] always returns, and never the empty string: it
    returns the cookie's value when that is a non-empty string, the
    anonymous sentinel ['anonymous'] for an empty cookie, and, for a missing
    or invalid cookie, ['anonymous'] when no login is available and [None]
    (not logged in) when one is. *)
Theorem get_current_user_contract (s : settings) (r : request) (st : state) :
  let cookie := secure_cookie r (AuthenticatedHandler.cookie_name s r) in
  exists (user : option string) (st' : state),
    AuthenticatedHandler.get_current_user s r st = (Return user, st')
    /\ user <> Some ""
    /\ (cookie = None -> AuthenticatedHandler.login_available s = false ->
        user = Some "anonymous")
    /\ (user = None
        \/ user = Some "anonymous"
        \/ (exists id, id <> "" /\ cookie = Some id /\ user = Some id))
    /\ (user = None <->
        cookie = None /\ AuthenticatedHandler.login_available s = true).
Proof.
  unfold AuthenticatedHandler.get_current_user,
    AuthenticatedHandler.clear_login_cookie, bind, clear_cookie, ret.
  destruct (secure_cookie r (AuthenticatedHandler.cookie_name s r))
    as [id|] eqn:Hc; simpl.
  - destruct (decide (Some id = Some "")) as [Heq|Hne].
    + eexists _, _. split; [reflexivity|].
      repeat split; try done.
      * by right; left.
      * by intros [? _].
    + eexists _, _. split; [reflexivity|].
      repeat split; try done.
      * right; right. exists id. repeat split; congruence.
      * by intros [? _].
  - destruct (decide (@None string = Some "")) as [Heq|_]; [done|].
    eexists _, _. split; [reflexivity|].
    destruct (AuthenticatedHandler.login_available s); simpl;
      repeat split; try done; auto.
    by intros [_ ?].
Qed.

Lemma get_current_user_contract_witness :
  (AuthenticatedHandler.get_current_user empty_settings
     (mkRequest "localhost:8888" "/" "/" ∅ (fun _ => None))
     initial_state).1
  = Return (Some "anonymous").
Proof.
  destruct (get_current_user_contract empty_settings
              (mkRequest "localhost:8888" "/" "/" ∅ (fun _ => None))
              initial_state) as (user & st' & Hrun & _ & Hanon & _).
  rewrite Hrun. simpl. f_equal. apply Hanon; reflexivity.
Defined.

(** ** IPythonHandler: the CORS headers *)

(** The header loop of the base class, on a handler whose [set_header]
    raises nothing but [Exception]s: it ends, the headers that are taken
    laid over the ones already set, the refused ones skipped. *)
Lemma header_loop_runs (refusal : string -> string -> option exn)
    (items : list (string * string)) (st : state) :
  (forall k v e, refusal k v = Some e -> is_Exception e = true) ->
  exists st',
    AuthenticatedHandler.header_loop refusal items st = (Return tt, st')
    /\ headers st'
       = foldl (fun h (item : string * string) =>
                  match refusal item.1 item.2 with
                  | None => <[item.1 := item.2]> h
                  | Some _ => h
                  end)
               (headers st) items
    /\ status st' = status st /\ written st' = written st
    /\ finished st' = finished st
    /\ cleared_cookies st' = cleared_cookies st
    /\ redirected st' = redirected st /\ log st' = log st.
Proof.
  intros Hexc. revert st.
  induction items as [|[k v] items IH]; intros st.
  - exists st. by repeat split.
  - unfold AuthenticatedHandler.header_loop. cbn [foldr].
    fold (AuthenticatedHandler.header_loop refusal items).
    unfold bind at 1. unfold try_except, set_header_on. cbn [fst snd].
    destruct (refusal k v) as [e|] eqn:Hr.
    + unfold raise at 1. rewrite (Hexc _ _ _ Hr). unfold ret at 1.
      destruct (IH st) as (st' & -> & Hh & Hrest). exists st'.
      split; [reflexivity|]. split; [|exact Hrest].
      cbn [foldl fst snd]. by rewrite Hr.
    + unfold set_header at 1.
      edestruct IH as (st' & -> & Hh & Hrest). exists st'.
      split; [reflexivity|]. split; [|exact Hrest].
      cbn [foldl fst snd]. rewrite Hr. exact Hh.
Qed.

Lemma foldl_accept_lookup (refusal : string -> string -> option exn)
    (items : list (string * string)) (h : gmap string string) (k : string) :
  NoDup items.*1 ->
  foldl (fun h (item : string * string) =>
           match refusal item.1 item.2 with
           | None => <[item.1 := item.2]> h
           | Some _ => h
           end) h items
    !! k
  = match (list_to_map items : gmap string string) !! k with
    | Some v => match refusal k v with
                | None => Some v
                | Some _ => h !! k
                end
    | None => h !! k
    end.
Proof.
  revert h. induction items as [|[k0 v0] items IH]; intros h Hnd.
  - simpl. by rewrite lookup_empty.
  - apply NoDup_cons in Hnd as [Hk0 Hnd]. simpl. rewrite IH by done.
    destruct (decide (k0 = k)) as [->|Hne].
    + rewrite lookup_insert_eq.
      rewrite (not_elem_of_list_to_map_1 _ _ Hk0).
      destruct (refusal k v0); [done|]. by rewrite lookup_insert_eq.
    + rewrite (lookup_insert_ne (list_to_map items)) by done.
      destruct (refusal k0 v0); [done|].
      by rewrite lookup_insert_ne.
Qed.

(** The method of the base class: the response after it, and the settings
    it leaves. *)
Lemma base_set_default_headers (refusal : string -> string -> option exn)
    (s : settings) (st : state) :
  (forall k v e, refusal k v = Some e -> is_Exception e = true) ->
  exists base,
    AuthenticatedHandler.set_default_headers refusal s st
    = (Return tt, (AuthenticatedHandler.settings_after_default s, base))
    /\ (forall k,
           headers base !! k
           = match AuthenticatedHandler.configured_headers s !! k with
             | Some v => match refusal k v with
                         | None => Some v
                         | Some _ => headers st !! k
                         end
             | None => headers st !! k
             end)
    /\ status base = status st /\ written base = written st
    /\ finished base = finished st
    /\ cleared_cookies base = cleared_cookies st
    /\ redirected base = redirected st /\ log base = log st.
Proof.
  intros Hexc. unfold AuthenticatedHandler.set_default_headers.
  destruct (header_loop_runs refusal
              (map_to_list (AuthenticatedHandler.configured_headers s)) st
              Hexc)
    as (base & Hrun & Hh & Hrest).
  exists base. rewrite Hrun. split; [reflexivity|]. split; [|exact Hrest].
  intros k. rewrite Hh, foldl_accept_lookup.
  - by rewrite list_to_map_to_list.
  - apply NoDup_fst_map_to_list.
Qed.

(** The in-place write of [X-Frame-Options] changes no setting the CORS
    step reads. *)
Lemma settings_after_default_cors (s : settings) :
  IPythonHandler.allow_origin (AuthenticatedHandler.settings_after_default s)
  = IPythonHandler.allow_origin s
  /\ IPythonHandler.allow_origin_pat
       (AuthenticatedHandler.settings_after_default s)
     = IPythonHandler.allow_origin_pat s
  /\ IPythonHandler.allow_credentials
       (AuthenticatedHandler.settings_after_default s)
     = IPythonHandler.allow_credentials s.
Proof.
  unfold AuthenticatedHandler.settings_after_default.
  by destruct (s_headers s).
Qed.

(** Looks a header up through the [set_header] calls made on top of the
    base class's headers. *)
Ltac lookup_header Hbase :=
  repeat first
    [ rewrite lookup_insert_eq
    | rewrite lookup_insert_ne by discriminate
    | rewrite Hbase ];
  reflexivity.

(** C3, as the claim states it, fails: with a pattern that matches every
    string, a request whose [Origin] header is empty has an origin the
    pattern matches, and still gets no [Access-Control-Allow-Origin], on a
    handler that takes every header. *)
Lemma cors_empty_origin_not_echoed :
  let pat : pattern := fun _ => true in
  let s := {| s_headers := None; s_cookie_name := None; s_password := None;
              s_allow_origin := None; s_allow_origin_pat := Some pat;
              s_allow_credentials := None; s_base_url := None |} in
  let r := mkRequest "localhost:8888" "/" "/" {[ "Origin" := "" ]}
             (fun _ => None) in
  IPythonHandler.get_origin r = Some ""
  /\ pat "" = true
  /\ (IPythonHandler.set_default_headers accepts_all s r initial_state).1
     = Return tt
  /\ headers
       (IPythonHandler.set_default_headers accepts_all s r initial_state).2.2
       !! "Access-Control-Allow-Origin" = None.
Proof. split; [|split; [|split]]; vm_compute; reflexivity. Qed.

(** On a handler whose [set_header] raises, such as a WebSocket handler,
    the exception of the unguarded CORS call leaves the method, and the
    credentials header is never reached. *)
Example cors_refused_on_websocket :
  let s := {| s_headers := None; s_cookie_name := None; s_password := None;
              s_allow_origin := Some "http://a"; s_allow_origin_pat := None;
              s_allow_credentials := Some true; s_base_url := None |} in
  let r := mkRequest "localhost:8888" "/" "/" ∅ (fun _ => None) in
  (IPythonHandler.set_default_headers websocket_refusal s r initial_state).1
  = Raise (OtherException "Exception" "Method not supported for Web Sockets")
  /\ headers
       (IPythonHandler.set_default_headers websocket_refusal s r
          initial_state).2.2
     = ∅.
Proof. split; vm_compute; reflexivity. Qed.

(** C3, amended. On a handler whose [set_header] raises nothing but
    [Exception]s, for every request and configuration: when [set_header]
    takes the CORS headers, [set_default_headers] returns, and in the
    response [Access-Control-Allow-Origin] is the configured exact origin
    when one is configured (non-empty), whatever the request's origin;
    else, when a pattern is configured and the request's origin (the
    [Origin] header, else [Sec-Websocket-Origin]) is non-empty and matched
    by it, the header is that origin; in every other case the method sets
    no such header, so the entry is what the configured header map gave
    it, if anything. [Access-Control-Allow-Credentials] is ["true"] when
    the credentials flag is set, whatever the origin outcome, and is
    otherwise not set by the method. When [set_header] refuses the origin
    header instead, its exception leaves the method, which guards none of
    its CORS calls, and neither CORS header is set. *)
Theorem cors_headers_policy (refusal : string -> string -> option exn)
    (s : settings) (r : request) (st : state) :
  (forall k v e, refusal k v = Some e -> is_Exception e = true) ->
  let origin :=
    match req_headers r !! "Origin" with
    | Some o => Some o
    | None => req_headers r !! "Sec-Websocket-Origin"
    end in
  let allow_origin_header : option string :=
    if IPythonHandler.truthy (IPythonHandler.allow_origin s) then
      Some (IPythonHandler.allow_origin s)
    else
      match IPythonHandler.allow_origin_pat s, origin with
      | Some pat, Some o =>
          if IPythonHandler.truthy o && pat o then Some o else None
      | _, _ => None
      end in
  let credentials_header : option string :=
    if IPythonHandler.allow_credentials s then Some "true" else None in
  let configured k :=
    match AuthenticatedHandler.configured_headers s !! k with
    | Some v => match refusal k v with
                | None => Some v
                | Some _ => headers st !! k
                end
    | None => headers st !! k
    end in
  ((forall v, allow_origin_header = Some v ->
              refusal "Access-Control-Allow-Origin" v = None) ->
   (forall v, credentials_header = Some v ->
              refusal "Access-Control-Allow-Credentials" v = None) ->
   exists s' st',
     IPythonHandler.set_default_headers refusal s r st
     = (Return tt, (s', st'))
     /\ headers st' !! "Access-Control-Allow-Origin"
        = match allow_origin_header with
          | Some v => Some v
          | None => configured "Access-Control-Allow-Origin"
          end
     /\ headers st' !! "Access-Control-Allow-Credentials"
        = match credentials_header with
          | Some v => Some v
          | None => configured "Access-Control-Allow-Credentials"
          end)
  /\ (forall v e,
         allow_origin_header = Some v ->
         refusal "Access-Control-Allow-Origin" v = Some e ->
         exists s' st',
           IPythonHandler.set_default_headers refusal s r st
           = (Raise e, (s', st'))
           /\ headers st' !! "Access-Control-Allow-Origin"
              = configured "Access-Control-Allow-Origin"
           /\ headers st' !! "Access-Control-Allow-Credentials"
              = configured "Access-Control-Allow-Credentials").
Proof.
  intros Hexc origin allow_origin_header credentials_header configured.
  destruct (base_set_default_headers refusal s st Hexc)
    as (base & Hrun & Hh & _).
  fold configured in Hh.
  destruct (settings_after_default_cors s) as (Eo & Ep & Ec).
  unfold IPythonHandler.set_default_headers. rewrite Hrun.
  unfold IPythonHandler.set_cors_headers, IPythonHandler.get_origin.
  rewrite Eo, Ep, Ec. fold origin.
  subst allow_origin_header credentials_header.
  unfold bind, set_header_on, ret, raise, set_header.
  split.
  - intros Ha Hc.
    destruct (IPythonHandler.truthy (IPythonHandler.allow_origin s));
      [rewrite (Ha _ eq_refl)
      |destruct (IPythonHandler.allow_origin_pat s) as [pat|];
        [destruct origin as [o|];
         [destruct (IPythonHandler.truthy o && pat o);
          [rewrite (Ha _ eq_refl)|]|]|]];
      (destruct (IPythonHandler.allow_credentials s);
       [rewrite (Hc _ eq_refl)|]);
      eexists _, _; (split; [reflexivity|]); cbn [headers];
      split; lookup_header Hh.
  - intros v e Hv Hr.
    destruct (IPythonHandler.truthy (IPythonHandler.allow_origin s));
      [injection Hv as <-; rewrite Hr
      |destruct (IPythonHandler.allow_origin_pat s) as [pat|];
        [destruct origin as [o|];
         [destruct (IPythonHandler.truthy o && pat o);
          [injection Hv as <-; rewrite Hr|discriminate Hv]
         |discriminate Hv]
        |discriminate Hv]];
      eexists _, _; (split; [reflexivity|]); split; apply Hh.
Qed.

Lemma cors_headers_policy_witness :
  let s := {| s_headers := None; s_cookie_name := None; s_password := None;
              s_allow_origin := Some "http://a"; s_allow_origin_pat := None;
              s_allow_credentials := Some true; s_base_url := None |} in
  let r := mkRequest "localhost:8888" "/" "/"
             {[ "Origin" := "http://evil.com" ]} (fun _ => None) in
  exists s' st',
    IPythonHandler.set_default_headers accepts_all s r initial_state
    = (Return tt, (s', st'))
    /\ headers st' !! "Access-Control-Allow-Origin" = Some "http://a"
    /\ headers st' !! "Access-Control-Allow-Credentials" = Some "true".
Proof.
  intros s r.
  destruct (proj1 (cors_headers_policy accepts_all s r initial_state
                     ltac:(discriminate))
              ltac:(reflexivity) ltac:(reflexivity))
    as (s' & st' & Hrun & Ho & Hc).
  exists s', st'. split; [exact Hrun|]. split; [exact Ho|exact Hc].
Defined.

(** ** The [json_errors] decorator *)

Lemma format_exception_nonempty (format_tb format_exception_only
    : exn -> list string) (e : exn) :
  Py.join "" (JsonErrors.format_exception format_tb format_exception_only e)
  <> "".
Proof.
  unfold JsonErrors.format_exception, Py.join.
  destruct (format_tb e ++ format_exception_only e)%list as [|line rest];
    vm_compute; discriminate.
Qed.

(** C4. The wrapper made by [json_errors]: when the method raises an
    [HTTPError], the response status is the error's status code and the
    response is finished with the JSON object holding the error's message
    under ["message"]; when it raises any other [Exception], the status is
    500 and the response is finished with a JSON object whose ["message"] is
    ["Unknown server error"] and whose ["traceback"] is a non-empty string;
    when it returns, the wrapper returns the same value and leaves the
    response as the method left it. *)
Theorem json_errors_envelope {A : Type} (json_dumps : JsonErrors.json_object -> string)
    (format_tb format_exception_only : exn -> list string)
    (method : M A) (st : state) :
  let wrapper :=
    JsonErrors.json_errors json_dumps format_tb format_exception_only method in
  (forall status_code log_message args reason st',
      method st = (Raise (HTTPError status_code log_message args reason), st') ->
      exists st'',
        wrapper st = (Return None, st'')
        /\ status st'' = status_code
        /\ finished st''
           = Some (json_dumps
                     [("message", JsonErrors.json_of_message log_message)]))
  /\ (forall e st',
         method st = (Raise e, st') ->
         is_Exception e = true ->
         (forall status_code log_message args reason,
             e <> HTTPError status_code log_message args reason) ->
         exists st'' reply tb_text,
           wrapper st = (Return None, st'')
           /\ status st'' = 500%Z
           /\ finished st'' = Some (json_dumps reply)
           /\ JsonErrors.json_get "message" reply
              = Some (JsonErrors.JStr "Unknown server error")
           /\ JsonErrors.json_get "traceback" reply
              = Some (JsonErrors.JStr tb_text)
           /\ tb_text <> "")
  /\ (forall result st',
         method st = (Return result, st') ->
         wrapper st = (Return (Some result), st')).
Proof.
  unfold JsonErrors.json_errors. split; [|split].
  - intros status_code log_message args reason st' ->.
    eexists. split; [reflexivity|]. by split.
  - intros e st' -> He Hnot.
    destruct e as [c m a rs| | | | |]; try discriminate He;
      try (by exfalso; eapply Hnot);
      (eexists _, _, _; split; [reflexivity|];
       repeat split; apply format_exception_nonempty).
  - by intros result st' ->.
Qed.

Lemma json_errors_envelope_witness :
  let json_dumps (d : JsonErrors.json_object) : string :=
    match d with
    | [(_, JsonErrors.JStr m)] => m
    | _ => "other"
    end in
  exists st,
    JsonErrors.json_errors json_dumps (fun _ => []) (fun _ => ["Error"])
      (raise (A := unit) (HTTPError 404 (Some "no such notebook") [] None))
      initial_state
    = (Return None, st)
    /\ status st = 404%Z
    /\ finished st = Some "no such notebook".
Proof.
  intros json_dumps.
  exact (proj1 (json_errors_envelope json_dumps (fun _ => [])
                  (fun _ => ["Error"])
                  (raise (A := unit)
                     (HTTPError 404 (Some "no such notebook") [] None))
                  initial_state)
           404%Z (Some "no such notebook") [] None initial_state eq_refl).
Defined.

(** An exception that is not an [Exception] is not answered: it goes on to
    the caller, the response untouched. *)
Lemma json_errors_passes_non_exceptions {A : Type}
    (json_dumps : JsonErrors.json_object -> string)
    (format_tb format_exception_only : exn -> list string)
    (method : M A) (st st' : state) (cls : string) :
  method st = (Raise (NonException cls), st') ->
  JsonErrors.json_errors json_dumps format_tb format_exception_only method st
  = (Raise (NonException cls), st').
Proof. unfold JsonErrors.json_errors. by intros ->. Qed.

(** ** IPythonHandler: the HTML error page *)

(** C9. Called without [exc_info], [write_error] never binds its local
    [exception]; building the template namespace reads it and raises
    [UnboundLocalError], a [NameError], before any header is set or any page
    is rendered or written. So a call that completes was given [exc_info];
    and with [exc_info], a template that renders gets its page written. *)
Theorem write_error_needs_exc_info (responses : Z -> option string)
    (percent_format : string -> list string -> option string)
    (render_template : string -> IPythonHandler.namespace -> M string)
    (status_code : Z) (st : state) :
  let write_error :=
    IPythonHandler.write_error responses percent_format render_template in
  write_error status_code None st
  = (Raise (UnboundLocalError "exception"), st)
  /\ is_NameError (UnboundLocalError "exception") = true
  /\ (forall exc_info st',
         write_error status_code exc_info st = (Return tt, st') ->
         exists e, exc_info = Some e)
  /\ (forall e html st1 st2,
         let ns :=
           {| IPythonHandler.ns_status_code := status_code;
              IPythonHandler.ns_status_message :=
                (let reason := IPythonHandler.getattr_reason e in
                 if IPythonHandler.truthy reason then reason
                 else default "Unknown HTTP Error" (responses status_code));
              IPythonHandler.ns_message :=
                IPythonHandler.custom_message percent_format "" e;
              IPythonHandler.ns_exception := e |} in
         set_header "Content-Type" "text/html" st = (Return tt, st1) ->
         render_template (pretty status_code +:+ ".html") ns st1
         = (Return html, st2) ->
         write_error status_code (Some e) st = write html st2).
Proof.
  split; [reflexivity|]. split; [reflexivity|]. split.
  - intros [e|] st' H; [by exists e|]. discriminate H.
  - intros e html st1 st2 ns Hh Hr.
    unfold IPythonHandler.write_error, IPythonHandler.read_local.
    unfold bind, ret, try_except. fold ns. rewrite Hh, Hr. reflexivity.
Qed.

Lemma write_error_needs_exc_info_witness :
  let render (name : string) (ns : IPythonHandler.namespace) : M string :=
    ret (name +:+ ": " +:+ IPythonHandler.ns_status_message ns) in
  written
    (IPythonHandler.write_error (fun _ => Some "Not Found")
       (fun fmt _ => Some fmt) render 404 (Some (HTTPError_code 404))
       initial_state).2
  = ["404.html: Not Found"].
Proof.
  intros render.
  rewrite (proj2 (proj2 (proj2
             (write_error_needs_exc_info (fun _ => Some "Not Found")
                (fun fmt _ => Some fmt) render 404 initial_state)))
             (HTTPError_code 404) "404.html: Not Found"
             (set_header "Content-Type" "text/html" initial_state).2
             (set_header "Content-Type" "text/html" initial_state).2
             eq_refl eq_refl).
  reflexivity.
Defined.

(** ** AuthenticatedFileHandler: hidden files *)

(** C5, as the claim states it, fails: Tornado's own validation runs
    first, and what it raises is raised. With a validation that answers 403
    for a directory, as Tornado's does for a path that is not a file, the
    hidden directory [/srv/nb/.ssh] is refused with 403, not 404. *)
Lemma hidden_directory_is_forbidden :
  let isdir (p : string) := String.eqb p "/srv/nb/.ssh" in
  let super (root absolute_path : string) : M string :=
    if isdir absolute_path
    then raise (HTTPError 403 (Some "%s is not a file") [absolute_path] None)
    else ret absolute_path in
  AuthenticatedFileHandler.is_hidden "/srv/nb/.ssh" "/srv/nb" = true
  /\ AuthenticatedFileHandler.validate_absolute_path super id
       "/srv/nb" "/srv/nb/.ssh" initial_state
     = (Raise (HTTPError 403 (Some "%s is not a file") ["/srv/nb/.ssh"] None),
        initial_state).
Proof. split; reflexivity. Qed.

(** C5, amended. Tornado's own validation runs first. A path it accepts
    and returns that is hidden under the root (one of its components from
    the root down to the target begins with a dot) is refused with HTTP
    404, the status of a missing file, and not 403; a path it returns that
    is not hidden is returned; and an error it raises (403 for a directory
    or a path outside the root, 404 for a missing file) is raised as it is,
    for a hidden path too. *)
Theorem hidden_file_after_tornado_validation
    (super_validate_absolute_path : string -> string -> M string)
    (abspath : string -> string)
    (root absolute_path : string) (st : state) :
  let validate :=
    AuthenticatedFileHandler.validate_absolute_path
      super_validate_absolute_path abspath root absolute_path in
  let components (abs_path : string) :=
    Py.split os_sep
      (Py.slice_from (String.length (abspath root)) abs_path) in
  (forall abs_path st',
      super_validate_absolute_path root absolute_path st
      = (Return abs_path, st') ->
      (exists part,
          In part (components abs_path) /\ Py.startswith part "." = true) ->
      exists st'', validate st = (Raise (HTTPError 404 None [] None), st''))
  /\ (forall abs_path st',
         super_validate_absolute_path root absolute_path st
         = (Return abs_path, st') ->
         (forall part,
             In part (components abs_path) ->
             Py.startswith part "." = false) ->
         validate st = (Return abs_path, st'))
  /\ (forall e st',
         super_validate_absolute_path root absolute_path st = (Raise e, st') ->
         validate st = (Raise e, st')).
Proof.
  intros validate components. subst validate.
  unfold AuthenticatedFileHandler.validate_absolute_path, bind.
  split; [|split].
  - intros abs_path st' Hsuper Hhidden. rewrite Hsuper.
    assert (Hh : AuthenticatedFileHandler.is_hidden abs_path (abspath root)
                 = true).
    { unfold AuthenticatedFileHandler.is_hidden. apply existsb_exists.
      exact Hhidden. }
    rewrite Hh. eexists. reflexivity.
  - intros abs_path st' Hsuper Hvisible. rewrite Hsuper.
    assert (Hh : AuthenticatedFileHandler.is_hidden abs_path (abspath root)
                 = false).
    { unfold AuthenticatedFileHandler.is_hidden.
      destruct (existsb _ _) eqn:E; [|reflexivity].
      apply existsb_exists in E as (part & Hin & Hdot).
      rewrite (Hvisible part Hin) in Hdot. discriminate Hdot. }
    by rewrite Hh.
  - intros e st' Hsuper. by rewrite Hsuper.
Qed.

Lemma hidden_file_after_tornado_validation_witness :
  exists st'',
    AuthenticatedFileHandler.validate_absolute_path
      (fun _ absolute_path => ret absolute_path) (fun p => p)
      "/srv/nb" "/srv/nb/.ssh/id_rsa" initial_state
    = (Raise (HTTPError 404 None [] None), st'').
Proof.
  apply (proj1 (hidden_file_after_tornado_validation
                  (fun _ absolute_path => ret absolute_path) (fun p => p)
                  "/srv/nb" "/srv/nb/.ssh/id_rsa" initial_state)
           "/srv/nb/.ssh/id_rsa" initial_state eq_refl).
  exists ".ssh". split; [|reflexivity]. vm_compute. right; left; reflexivity.
Defined.

(** A path that Tornado accepts and that is not hidden is returned. *)
Lemma visible_file_is_served
    (super_validate_absolute_path : string -> string -> M string)
    (abspath : string -> string)
    (root absolute_path abs_path : string) (st st' : state) :
  super_validate_absolute_path root absolute_path st = (Return abs_path, st') ->
  AuthenticatedFileHandler.is_hidden abs_path (abspath root) = false ->
  AuthenticatedFileHandler.validate_absolute_path
    super_validate_absolute_path abspath root absolute_path st
  = (Return abs_path, st').
Proof.
  intros Hsuper Hh.
  unfold AuthenticatedFileHandler.validate_absolute_path, bind.
  by rewrite Hsuper, Hh.
Qed.

(** What Tornado's validation raises is raised as it is, the hidden-file
    check not reached. *)
Lemma super_error_goes_first
    (super_validate_absolute_path : string -> string -> M string)
    (abspath : string -> string)
    (root absolute_path : string) (e : exn) (st st' : state) :
  super_validate_absolute_path root absolute_path st = (Raise e, st') ->
  AuthenticatedFileHandler.validate_absolute_path
    super_validate_absolute_path abspath root absolute_path st
  = (Raise e, st').
Proof.
  intros Hsuper.
  unfold AuthenticatedFileHandler.validate_absolute_path, bind.
  by rewrite Hsuper.
Qed.

(** ** FileFindHandler: validation of the resolved path *)

Lemma prefix_cons (a b : ascii) (s t : string) :
  String.prefix (String a s) (String b t)
  = if ascii_dec a b then String.prefix s t else false.
Proof. reflexivity. Qed.

Lemma prefix_app (d t u : string) :
  String.prefix (d +:+ t) (d +:+ u) = String.prefix t u.
Proof.
  induction d as [|a d IH]; [reflexivity|].
  rewrite !app_cons. simpl. by destruct (ascii_dec a a).
Qed.

(** A sibling of a root is not under it: the separator that ends the root
    has to be met by a separator in the path. *)
Lemma sibling_not_under_root (dir tail : string) :
  tail <> "" ->
  Py.startswith tail "/" = false ->
  Py.startswith ((dir +:+ tail) +:+ "/") (dir +:+ "/") = false.
Proof.
  intros Hne Hs. unfold Py.startswith in *.
  rewrite app_assoc_str, prefix_app.
  destruct tail as [|a tail]; [done|].
  rewrite app_cons. change "/" with (String "/" "") in *.
  rewrite prefix_cons in *.
  destruct (ascii_dec "/" a); [|reflexivity].
  destruct tail; discriminate Hs.
Qed.

(** The loop leaves [root] at the first root the path is under. *)
Lemma loop_root_first_match (self_root : list string)
    (root absolute_path : string) :
  (exists r, In r self_root
             /\ Py.startswith (absolute_path +:+ "/") r = true) ->
  exists before chosen after,
    self_root = (before ++ chosen :: after)%list
    /\ FileFindHandler.loop_root self_root root absolute_path = chosen
    /\ Py.startswith (absolute_path +:+ "/") chosen = true
    /\ (forall r, In r before ->
                  Py.startswith (absolute_path +:+ "/") r = false).
Proof.
  revert root. induction self_root as [|r0 rest IH]; intros root [r [Hin Hr]].
  - destruct Hin.
  - simpl. change (String os_sep "") with "/".
    destruct (Py.startswith (absolute_path +:+ "/") r0) eqn:E.
    + exists [], r0, rest. repeat split; try done.
    + destruct Hin as [->|Hin]; [congruence|].
      destruct (IH r0 (ex_intro _ r (conj Hin Hr)))
        as (before & chosen & after & -> & Hl & Hc & Hb).
      exists (r0 :: before), chosen, after. repeat split; try done.
      intros r' [<-|Hr']; [exact E|by apply Hb].
Qed.

Lemma last_nonempty_default {A : Type} (l : list A) (d d' : A) :
  l <> [] -> List.last l d = List.last l d'.
Proof.
  induction l as [|x l IH]; [done|]. intros _.
  destruct l as [|y l]; [reflexivity|].
  change (List.last (y :: l) d = List.last (y :: l) d').
  apply IH. discriminate.
Qed.

(** With no root matching, the loop leaves [root] at the last root tried,
    or at the argument when there is no root at all. *)
Lemma loop_root_no_match (self_root : list string)
    (root absolute_path : string) :
  (forall r, In r self_root ->
             Py.startswith (absolute_path +:+ "/") r = false) ->
  FileFindHandler.loop_root self_root root absolute_path
  = List.last self_root root.
Proof.
  revert root. induction self_root as [|r0 rest IH]; intros root Hall.
  - reflexivity.
  - simpl FileFindHandler.loop_root. change (String os_sep "") with "/".
    rewrite (Hall r0) by (by left).
    rewrite IH by (intros r Hr; apply Hall; by right).
    destruct rest as [|r1 rest]; [reflexivity|].
    change (List.last (r1 :: rest) r0 = List.last (r1 :: rest) root).
    apply last_nonempty_default. discriminate.
Qed.

(** C2. [FileFindHandler.validate_absolute_path] raises HTTP 404 for the
    empty-string sentinel. For any other path it tests, root by root,
    whether the path with a separator appended starts with the
    (separator-terminated) root, a test that a sibling directory whose name
    only extends the root's name fails; it then hands the path to Tornado's
    own validation: with the first root that matched or, when no root
    matches, with the last root tried. *)
Theorem file_find_validate_contract
    (super_validate_absolute_path : string -> string -> M string)
    (self_root : list string) (root absolute_path : string) (st : state) :
  let validate :=
    FileFindHandler.validate_absolute_path super_validate_absolute_path
      self_root root in
  validate "" st = (Raise (HTTPError 404 None [] None), st)
  /\ (absolute_path <> "" ->
      validate absolute_path st
      = super_validate_absolute_path
          (FileFindHandler.loop_root self_root root absolute_path)
          absolute_path st
      /\ ((exists r, In r self_root
                     /\ Py.startswith (absolute_path +:+ "/") r = true) ->
          exists before chosen after,
            self_root = (before ++ chosen :: after)%list
            /\ FileFindHandler.loop_root self_root root absolute_path = chosen
            /\ Py.startswith (absolute_path +:+ "/") chosen = true
            /\ (forall r, In r before ->
                          Py.startswith (absolute_path +:+ "/") r = false))
      /\ ((forall r, In r self_root ->
                     Py.startswith (absolute_path +:+ "/") r = false) ->
          validate absolute_path st
          = super_validate_absolute_path (List.last self_root root)
              absolute_path st))
  /\ (forall dir tail,
         tail <> "" ->
         Py.startswith tail "/" = false ->
         Py.startswith ((dir +:+ tail) +:+ "/") (dir +:+ "/") = false).
Proof.
  split; [reflexivity|]. split.
  - intros Hne.
    assert (Hrun :
      FileFindHandler.validate_absolute_path super_validate_absolute_path
        self_root root absolute_path st
      = super_validate_absolute_path
          (FileFindHandler.loop_root self_root root absolute_path)
          absolute_path st).
    { unfold FileFindHandler.validate_absolute_path.
      destruct (String.eqb_spec absolute_path ""); [done|reflexivity]. }
    split; [exact Hrun|]. split.
    + apply loop_root_first_match.
    + intros Hall. rewrite Hrun. by rewrite loop_root_no_match.
  - apply sibling_not_under_root.
Qed.

Lemma file_find_validate_contract_witness :
  let super (root absolute_path : string) : M string :=
    if Py.startswith (absolute_path +:+ "/") root then ret absolute_path
    else raise (HTTPError 403 (Some "%s is not in root static directory")
                  [absolute_path] None) in
  FileFindHandler.validate_absolute_path super
    ["/srv/static/"; "/srv/root/"] "" "/srv/root-evil/x.js" initial_state
  = super "/srv/root/" "/srv/root-evil/x.js" initial_state
  /\ Py.startswith ("/srv/root-evil/x.js" +:+ "/") "/srv/root/" = false.
Proof.
  intros super. split.
  - apply (proj1 (proj2 (file_find_validate_contract super
                           ["/srv/static/"; "/srv/root/"] ""
                           "/srv/root-evil/x.js" initial_state))).
    + discriminate.
    + intros r [<-|[<-|[]]]; reflexivity.
  - exact (proj2 (proj2 (file_find_validate_contract super
                           ["/srv/static/"; "/srv/root/"] ""
                           "/srv/root-evil/x.js" initial_state))
             "/srv/root" "-evil/x.js" ltac:(discriminate) eq_refl).
Defined.

(** ** FileFindHandler: the search cache *)

Section SearchCache.

Variable isfile : string -> bool.
Variable path_join : string -> string -> string.
Variable abspath : string -> string.

(** The search returns the file under the first root that has one. *)
Lemma filefind_first_match (path : string) (roots : list string)
    (found : string) :
  FileFindHandler.filefind isfile path_join path roots = Some found ->
  exists before root after,
    roots = (before ++ root :: after)%list
    /\ found = path_join root path
    /\ isfile found = true
    /\ (forall r, In r before -> isfile (path_join r path) = false).
Proof.
  induction roots as [|r0 rest IH]; [discriminate|].
  simpl. destruct (isfile (path_join r0 path)) eqn:E.
  - intros [= <-]. exists [], r0, rest. by repeat split.
  - intros H. destruct (IH H) as (before & root & after & -> & -> & Hf & Hb).
    exists (r0 :: before), root, after. repeat split; try done.
    intros r [<-|Hr]; [exact E|by apply Hb].
Qed.

(** The search fails only when no root has the file. *)
Lemma filefind_no_match (path : string) (roots : list string) :
  FileFindHandler.filefind isfile path_join path roots = None ->
  forall r, In r roots -> isfile (path_join r path) = false.
Proof.
  induction roots as [|r0 rest IH]; [by intros _ r []|].
  simpl. destruct (isfile (path_join r0 path)) eqn:E; [discriminate|].
  intros H r [<-|Hr]; [exact E|by apply IH].
Qed.

(** C1, amended. On a cache miss [get_absolute_path] searches the roots in
    order, once. When a root has the file, the absolute path of the first
    match is stored in the shared cache and returned, and a later call
    for the same path returns the cached value with no further search. When
    no root has it, the empty-string sentinel is returned and nothing is
    stored, so a later call for the same path searches again. *)
Theorem get_absolute_path_caches_found_only (roots : list string)
    (path : string) (cls : FileFindHandler.class_state) :
  FileFindHandler._static_paths cls !! path = None ->
  let get_absolute_path :=
    FileFindHandler.get_absolute_path isfile path_join abspath in
  let searched := (FileFindHandler.searches cls ++ [(path, roots)])%list in
  (forall found,
      FileFindHandler.filefind isfile path_join path roots = Some found ->
      (exists before root after,
          roots = (before ++ root :: after)%list
          /\ found = path_join root path
          /\ isfile found = true
          /\ (forall r, In r before -> isfile (path_join r path) = false))
      /\ let cls' :=
           {| FileFindHandler._static_paths :=
                <[path := abspath found]> (FileFindHandler._static_paths cls);
              FileFindHandler.searches := searched |} in
         get_absolute_path roots path cls = (abspath found, cls')
         /\ (forall roots',
                get_absolute_path roots' path cls' = (abspath found, cls')))
  /\ (FileFindHandler.filefind isfile path_join path roots = None ->
      (forall r, In r roots -> isfile (path_join r path) = false)
      /\ let cls' :=
           {| FileFindHandler._static_paths := FileFindHandler._static_paths cls;
              FileFindHandler.searches := searched |} in
         get_absolute_path roots path cls = ("", cls')
         /\ get_absolute_path roots path cls'
            = ("",
               {| FileFindHandler._static_paths :=
                    FileFindHandler._static_paths cls;
                  FileFindHandler.searches :=
                    (searched ++ [(path, roots)])%list |})).
Proof.
  intros Hmiss get_absolute_path searched. subst get_absolute_path. split.
  - intros found Hfound. split; [by apply filefind_first_match|].
    unfold FileFindHandler.get_absolute_path. simpl.
    rewrite Hmiss, Hfound. split; [reflexivity|].
    intros roots'. by rewrite lookup_insert_eq.
  - intros Hnone. split; [by apply filefind_no_match|].
    unfold FileFindHandler.get_absolute_path. simpl.
    by rewrite Hmiss, Hnone.
Qed.

End SearchCache.

(** C1, as the claim states it, fails: a path that no root has is answered
    with the sentinel, yet the cache holds nothing for it afterwards, and
    the second call for it makes a second search. *)
Lemma not_found_is_not_cached :
  let get_absolute_path :=
    FileFindHandler.get_absolute_path (fun _ => false) String.append id in
  let first :=
    get_absolute_path ["/srv/static/"] "missing.js"
      FileFindHandler.empty_class in
  let second := get_absolute_path ["/srv/static/"] "missing.js" first.2 in
  first.1 = ""
  /\ FileFindHandler._static_paths first.2 !! "missing.js" = None
  /\ second.1 = ""
  /\ FileFindHandler.searches first.2
     = [("missing.js", ["/srv/static/"])]
  /\ FileFindHandler.searches second.2
     = [("missing.js", ["/srv/static/"]); ("missing.js", ["/srv/static/"])].
Proof. repeat split; vm_compute; reflexivity. Qed.

Lemma get_absolute_path_caches_found_only_witness :
  let isfile (p : string) := String.eqb p "/srv/static/base.js" in
  let get_absolute_path :=
    FileFindHandler.get_absolute_path isfile String.append id in
  let cls' :=
    {| FileFindHandler._static_paths :=
         {[ "base.js" := "/srv/static/base.js" ]};
       FileFindHandler.searches :=
         [("base.js", ["/opt/nb/"; "/srv/static/"])] |} in
  get_absolute_path ["/opt/nb/"; "/srv/static/"] "base.js"
    FileFindHandler.empty_class
  = ("/srv/static/base.js", cls')
  /\ get_absolute_path ["/opt/nb/"; "/srv/static/"] "base.js" cls'
     = ("/srv/static/base.js", cls').
Proof.
  intros isfile get_absolute_path cls'.
  destruct (proj1 (get_absolute_path_caches_found_only isfile String.append id
                     ["/opt/nb/"; "/srv/static/"] "base.js"
                     FileFindHandler.empty_class (lookup_empty _))
              "/srv/static/base.js" eq_refl) as [_ [Hfirst Hsecond]].
  split; [exact Hfirst|exact (Hsecond _)].
Defined.

(** ** FilesRedirectHandler *)

Lemma removelast_cons {A : Type} (a : A) (l : list A) :
  l <> [] -> removelast (a :: l) = a :: removelast l.
Proof. by destruct l. Qed.

Lemma last_cons {A : Type} (a d : A) (l : list A) :
  l <> [] -> List.last (a :: l) d = List.last l d.
Proof. by destruct l. Qed.

Lemma remove_first_nil (x : string) (l : list string) :
  Py.remove_first x l = [] -> removelast l = [].
Proof.
  destruct l as [|a [|b l]]; [done|done|].
  cbn [Py.remove_first]. by destruct (String.eqb x a).
Qed.

(** When the [files] segment is one of the directories of the path, the
    retry keeps the name and looks under the parent with that segment
    removed. *)
Lemma remove_first_keeps_name (x : string) (parts : list string) :
  Py.contains x (Py.but_last parts) = true ->
  Py.but_last (Py.remove_first x parts)
  = Py.remove_first x (Py.but_last parts)
  /\ Py.last_part (Py.remove_first x parts) = Py.last_part parts.
Proof.
  unfold Py.contains, Py.but_last, Py.last_part.
  induction parts as [|p rest IH]; [discriminate|].
  destruct (decide (rest = [])) as [->|Hne]; [discriminate|].
  rewrite (removelast_cons p rest Hne), (last_cons p "" rest Hne).
  cbn [existsb Py.remove_first]. destruct (String.eqb x p) eqn:E.
  - intros _. by split.
  - cbn [orb]. intros H. destruct (IH H) as [IH1 IH2].
    assert (Hne' : Py.remove_first x rest <> []).
    { intros Hnil. apply remove_first_nil in Hnil.
      rewrite Hnil in H. discriminate H. }
    rewrite (removelast_cons _ _ Hne'), (last_cons _ _ _ Hne').
    split; [by f_equal|exact IH2].
Qed.

(** The name is fixed before the segment is removed: when [files] is the
    last segment itself, the retry still asks for a file of that name, one
    directory up. *)
Example files_segment_last :
  let parts := Py.split "/" "a/b/files" in
  Py.last_part parts = "files"
  /\ Py.join "/" (Py.but_last parts) = "a/b"
  /\ Py.join "/" (Py.but_last (Py.remove_first "files" parts)) = "a".
Proof. repeat split; reflexivity. Qed.

Lemma contains_but_last (x : string) (parts : list string) :
  Py.contains x (Py.but_last parts) = true -> Py.contains x parts = true.
Proof.
  unfold Py.contains, Py.but_last.
  induction parts as [|p rest IH]; [done|].
  destruct (decide (rest = [])) as [->|Hne]; [done|].
  rewrite (removelast_cons p rest Hne). cbn [existsb].
  destruct (String.eqb x p); [done|]. exact IH.
Qed.






(** * Further properties of the handlers *)

(** ** TrailingSlashHandler: a URI that ends with no slash *)

(** X1. A request whose URI does not end with ['/'] (a path with a trailing
    slash followed by a query string, say) is redirected to that same URI:
    the handler strips nothing from it. *)
Theorem trailing_slash_redirects_to_itself (r : request) (st : state) :
  Py.endswith_char (uri r) "/" = false ->
  TrailingSlashHandler.get r st = redirect (uri r) st.
Proof.
  intros H. unfold TrailingSlashHandler.get. by rewrite rstrip_fixed.
Qed.

Lemma trailing_slash_redirects_to_itself_witness :
  redirected
    (TrailingSlashHandler.get
       (mkRequest "localhost:8888" "/tree/?next=x" "/tree/" ∅
          (fun _ => None))
       initial_state).2
  = Some "/tree/?next=x".
Proof.
  rewrite (trailing_slash_redirects_to_itself
             (mkRequest "localhost:8888" "/tree/?next=x" "/tree/" ∅
                (fun _ => None))
             initial_state eq_refl).
  reflexivity.
Defined.

(** ** AuthenticatedHandler: the default headers *)

(** X2. On a handler whose [set_header] raises nothing but [Exception]s,
    [AuthenticatedHandler.set_default_headers] does not raise. It walks
    the configured header map with [X-Frame-Options] defaulted to
    ["SAMEORIGIN"]: a header that [set_header] takes is set to its
    configured value, one that it refuses is skipped and keeps the value it
    had, a header the map does not name is untouched, and nothing else of
    the response changes. The default is written into the dictionary
    itself: settings that hold a header map without [X-Frame-Options] hold
    it with ["SAMEORIGIN"] afterwards; settings without a header map are
    left as they are. *)
Theorem base_headers_frame_options (refusal : string -> string -> option exn)
    (s : settings) (st : state) :
  (forall k v e, refusal k v = Some e -> is_Exception e = true) ->
  let walked :=
    let h := default ∅ (s_headers s) in
    match h !! "X-Frame-Options" with
    | Some _ => h
    | None => <["X-Frame-Options" := "SAMEORIGIN"]> h
    end in
  exists s' st',
    AuthenticatedHandler.set_default_headers refusal s st
    = (Return tt, (s', st'))
    /\ walked !! "X-Frame-Options"
       = Some (default "SAMEORIGIN"
                 (default ∅ (s_headers s) !! "X-Frame-Options"))
    /\ (forall k v,
           walked !! k = Some v ->
           headers st' !! k
           = match refusal k v with
             | None => Some v
             | Some _ => headers st !! k
             end)
    /\ (forall k, walked !! k = None -> headers st' !! k = headers st !! k)
    /\ (status st' = status st /\ written st' = written st
        /\ finished st' = finished st
        /\ cleared_cookies st' = cleared_cookies st
        /\ redirected st' = redirected st /\ log st' = log st)
    /\ s_headers s'
       = match s_headers s with
         | Some _ => Some walked
         | None => None
         end
    /\ s_cookie_name s' = s_cookie_name s /\ s_password s' = s_password s
    /\ s_allow_origin s' = s_allow_origin s
    /\ s_allow_origin_pat s' = s_allow_origin_pat s
    /\ s_allow_credentials s' = s_allow_credentials s
    /\ s_base_url s' = s_base_url s.
Proof.
  intros Hexc walked.
  destruct (base_set_default_headers refusal s st Hexc)
    as (st' & Hrun & Hh & Hrest).
  exists (AuthenticatedHandler.settings_after_default s), st'.
  split; [exact Hrun|].
  change (AuthenticatedHandler.configured_headers s) with walked in Hh.
  split; [|split; [|split; [|split; [exact Hrest|]]]].
  - subst walked. cbv zeta.
    destruct (default ∅ (s_headers s) !! "X-Frame-Options") as [v|] eqn:E.
    + by rewrite E.
    + by rewrite lookup_insert_eq.
  - intros k v Hk. by rewrite Hh, Hk.
  - intros k Hk. by rewrite Hh, Hk.
  - unfold AuthenticatedHandler.settings_after_default.
    destruct (s_headers s) as [g|] eqn:E; [|by repeat split].
    split; [|by repeat split].
    cbn [s_headers AuthenticatedHandler.settings_with_headers].
    unfold AuthenticatedHandler.configured_headers. by rewrite E.
Qed.

Lemma base_headers_frame_options_witness :
  let s := {| s_headers := Some {[ "Server" := "nb" ]};
              s_cookie_name := None; s_password := None;
              s_allow_origin := None; s_allow_origin_pat := None;
              s_allow_credentials := None; s_base_url := None |} in
  let refusal (name value : string) : option exn :=
    if String.eqb name "Server"
    then Some (OtherException "ValueError" "Unsafe header value")
    else None in
  exists s' st',
    AuthenticatedHandler.set_default_headers refusal s initial_state
    = (Return tt, (s', st'))
    /\ headers st' !! "X-Frame-Options" = Some "SAMEORIGIN"
    /\ headers st' !! "Server" = None
    /\ s_headers s'
       = Some (<["X-Frame-Options" := "SAMEORIGIN"]> {[ "Server" := "nb" ]}).
Proof.
  intros s refusal.
  assert (Hexc : forall k v e, refusal k v = Some e -> is_Exception e = true).
  { intros k v e. unfold refusal.
    destruct (String.eqb k "Server"); [by intros [= <-]|discriminate]. }
  destruct (base_headers_frame_options refusal s initial_state Hexc)
    as (s' & st' & Hrun & _ & Hset & _ & _ & Hs & _).
  exists s', st'. split; [exact Hrun|]. split; [|split; [|exact Hs]].
  - apply (Hset "X-Frame-Options" "SAMEORIGIN"). vm_compute. reflexivity.
  - apply (Hset "Server" "nb"). vm_compute. reflexivity.
Defined.

(** X3. Whether the CORS step of [IPythonHandler.set_default_headers]
    returns or raises (its [set_header] calls are under no [try]), it
    touches no header but [Access-Control-Allow-Origin] and
    [Access-Control-Allow-Credentials]: every other header, the
    [X-Frame-Options] of the base class among them, is as the base class
    left it, and so are the settings. *)
Theorem cors_step_keeps_other_headers
    (refusal : string -> string -> option exn)
    (s : settings) (r : request) (st : state) (k : string) :
  (forall k v e, refusal k v = Some e -> is_Exception e = true) ->
  k <> "Access-Control-Allow-Origin" ->
  k <> "Access-Control-Allow-Credentials" ->
  exists s' base res st',
    AuthenticatedHandler.set_default_headers refusal s st
    = (Return tt, (s', base))
    /\ IPythonHandler.set_default_headers refusal s r st = (res, (s', st'))
    /\ headers st' !! k = headers base !! k.
Proof.
  intros Hexc Hk1 Hk2.
  destruct (base_set_default_headers refusal s st Hexc)
    as (base & Hrun & _).
  exists (AuthenticatedHandler.settings_after_default s), base.
  unfold IPythonHandler.set_default_headers. rewrite Hrun.
  unfold IPythonHandler.set_cors_headers, bind, set_header_on, ret, raise,
    set_header.
  repeat match goal with
         | |- context [match ?x with _ => _ end] =>
             lazymatch x with
             | context [match _ with _ => _ end] => fail
             | _ => destruct x
             end
         end;
    eexists _, _; (split; [reflexivity|]); (split; [reflexivity|]);
    cbn [headers]; by rewrite ?lookup_insert_ne.
Qed.

Lemma cors_step_keeps_other_headers_witness :
  let s := {| s_headers := None; s_cookie_name := None; s_password := None;
              s_allow_origin := Some "http://a"; s_allow_origin_pat := None;
              s_allow_credentials := Some true; s_base_url := None |} in
  let r := mkRequest "localhost:8888" "/" "/" ∅ (fun _ => None) in
  exists s' base res st',
    AuthenticatedHandler.set_default_headers accepts_all s initial_state
    = (Return tt, (s', base))
    /\ IPythonHandler.set_default_headers accepts_all s r initial_state
       = (res, (s', st'))
    /\ headers st' !! "X-Frame-Options" = headers base !! "X-Frame-Options".
Proof.
  intros s r.
  apply (cors_step_keeps_other_headers accepts_all s r initial_state
           "X-Frame-Options");
    discriminate.
Defined.

(** ** AuthenticatedHandler: cookies and login *)

(** X4. [get_current_user] clears the login cookie exactly when the secure
    cookie is missing or invalid, and then clears it once, under the
    handler's cookie name; with a cookie that reads, even an empty one, it
    leaves the handler as it found it. *)
Theorem get_current_user_clears_unreadable_cookie (s : settings)
    (r : request) (st : state) :
  let name := AuthenticatedHandler.cookie_name s r in
  (AuthenticatedHandler.get_current_user s r st).2
  = match secure_cookie r name with
    | None => (clear_cookie name st).2
    | Some _ => st
    end
  /\ cleared_cookies (AuthenticatedHandler.get_current_user s r st).2
     = match secure_cookie r name with
       | None => (cleared_cookies st ++ [name])%list
       | Some _ => cleared_cookies st
       end.
Proof.
  unfold AuthenticatedHandler.get_current_user,
    AuthenticatedHandler.clear_login_cookie, bind, ret.
  destruct (secure_cookie r (AuthenticatedHandler.cookie_name s r))
    as [id|]; simpl.
  - by destruct (decide (Some id = Some "")).
  - by destruct (decide (@None string = Some "")).
Qed.

(** X5. [logged_in] always returns, and is true exactly when the secure
    cookie holds a non-empty value other than ['anonymous']: an anonymous
    user, an empty cookie and a missing cookie all count as not logged in,
    whether or not a password is configured. *)
Theorem logged_in_iff_named_user (s : settings) (r : request) (st : state) :
  exists (b : bool) (st' : state),
    AuthenticatedHandler.logged_in s r st = (Return b, st')
    /\ (b = true <->
        exists id,
          secure_cookie r (AuthenticatedHandler.cookie_name s r) = Some id
          /\ id <> "" /\ id <> "anonymous").
Proof.
  unfold AuthenticatedHandler.logged_in, AuthenticatedHandler.get_current_user,
    AuthenticatedHandler.clear_login_cookie, bind, ret, clear_cookie.
  destruct (secure_cookie r (AuthenticatedHandler.cookie_name s r))
    as [id|] eqn:Hc; simpl.
  - destruct (decide (Some id = Some "")) as [[= ->]|Hne]; simpl.
    + eexists _, _. split; [reflexivity|]. split; [discriminate|].
      by intros (id & [= <-] & H & _).
    + eexists _, _. split; [reflexivity|].
      destruct (String.eqb_spec id ""); [congruence|].
      destruct (String.eqb_spec id "anonymous"); simpl.
      * split; [discriminate|]. intros (id' & [= <-] & _ & H). done.
      * split; [|done]. intros _. by exists id.
  - destruct (decide (@None string = Some "")) as [?|_]; [done|].
    destruct (AuthenticatedHandler.login_available s); simpl;
      eexists _, _; (split; [reflexivity|]);
      (split; [discriminate|]); by intros (id & ? & _).
Qed.

Lemma sub_non_alphanum_app (c : ascii) (s t : string) :
  Py.sub_non_alphanum c (s +:+ t)
  = Py.sub_non_alphanum c s +:+ Py.sub_non_alphanum c t.
Proof.
  induction s as [|a s IH]; [reflexivity|].
  rewrite app_cons. simpl. by rewrite IH, app_cons.
Qed.

Lemma length_app (s t : string) :
  String.length (s +:+ t) = String.length s + String.length t.
Proof.
  induction s as [|a s IH]; [reflexivity|].
  rewrite app_cons. simpl. by rewrite IH.
Qed.

Lemma sub_non_alphanum_length (c : ascii) (s : string) :
  String.length (Py.sub_non_alphanum c s) = String.length s.
Proof. induction s as [|a s IH]; [reflexivity|]. simpl. by rewrite IH. Qed.

(** X6. The default cookie name keeps the host's length and its
    alphanumeric characters: it is ["username-"] followed by the host with
    each other character turned into ['-'], nine characters longer than
    the host. So two hosts that differ only in such characters (a
    [':'] against a ['.'] or a ['-']) share one cookie name. *)
Theorem default_cookie_name_shape (s : settings) (r r' : request) :
  s_cookie_name s = None ->
  AuthenticatedHandler.cookie_name s r
  = "username-" +:+ Py.sub_non_alphanum "-" (host r)
  /\ String.length (AuthenticatedHandler.cookie_name s r)
     = 9 + String.length (host r)
  /\ (Py.sub_non_alphanum "-" (host r) = Py.sub_non_alphanum "-" (host r') ->
      AuthenticatedHandler.cookie_name s r
      = AuthenticatedHandler.cookie_name s r').
Proof.
  intros Hs. unfold AuthenticatedHandler.cookie_name. rewrite Hs. simpl.
  rewrite !sub_non_alphanum_app.
  split; [reflexivity|]. split.
  - rewrite length_app, !sub_non_alphanum_length. reflexivity.
  - by intros ->.
Qed.

Lemma default_cookie_name_shape_witness :
  AuthenticatedHandler.cookie_name empty_settings
    (mkRequest "localhost:8888" "/" "/" ∅ (fun _ => None))
  = AuthenticatedHandler.cookie_name empty_settings
      (mkRequest "localhost.8888" "/" "/" ∅ (fun _ => None)).
Proof.
  exact (proj2 (proj2 (default_cookie_name_shape empty_settings
                         (mkRequest "localhost:8888" "/" "/" ∅
                            (fun _ => None))
                         (mkRequest "localhost.8888" "/" "/" ∅
                            (fun _ => None))
                         eq_refl))
           eq_refl).
Defined.

(** ** FileFindHandler: what the containment test means *)

Lemma prefix_empty (s : string) : String.prefix "" s = true.
Proof. by destruct s. Qed.

Lemma prefix_of_empty (a : ascii) (s : string) :
  String.prefix (String a s) "" = false.
Proof. reflexivity. Qed.

Lemma startswith_dir_iff (d p : string) :
  Py.startswith (p +:+ "/") (d +:+ "/") = true
  <-> p = d \/ Py.startswith p (d +:+ "/") = true.
Proof.
  unfold Py.startswith. revert p.
  induction d as [|b d IH]; intros [|a p].
  - split; [by left|reflexivity].
  - rewrite app_empty_l, app_cons. change "/" with (String "/" "").
    rewrite !prefix_cons. destruct (ascii_dec "/" a).
    + rewrite !prefix_empty. split; [by right|done].
    + split; [done|]. by intros [?|?].
  - rewrite app_empty_l, app_cons. change "/" with (String "/" "") at 1.
    rewrite prefix_cons, prefix_of_empty.
    assert (String.prefix (d +:+ String "/" "") "" = false) as ->
      by (by destruct d).
    destruct (ascii_dec b "/"); split; try done; by intros [?|?].
  - rewrite !app_cons, !prefix_cons. destruct (ascii_dec b a) as [->|Hne].
    + rewrite IH. split.
      * intros [->|H]; [by left|by right].
      * intros [[= ->]|H]; [by left|by right].
    + split; [done|]. intros [[= ? ?]|?]; congruence.
Qed.

(** X7. For a separator-terminated root [d/], the test
    [(path + '/').startswith(d/)] holds exactly when the path is the
    directory [d] itself or begins with [d/], that is, lies below it. *)
Theorem containment_test_meaning (d p : string) :
  Py.startswith (p +:+ "/") (d +:+ "/") = true
  <-> p = d \/ Py.startswith p (d +:+ "/") = true.
Proof. apply startswith_dir_iff. Qed.

Lemma loop_root_member (self_root : list string) (root p : string) :
  FileFindHandler.loop_root self_root root p = root
  \/ In (FileFindHandler.loop_root self_root root p) self_root.
Proof.
  revert root. induction self_root as [|r0 rest IH]; intros root.
  - by left.
  - right. simpl.
    destruct (Py.startswith (p +:+ String os_sep "") r0); [by left|].
    destruct (IH r0) as [->|H]; [by left|by right].
Qed.

(** X8. When the handler has at least one root, the [root] argument of
    [FileFindHandler.validate_absolute_path] plays no part: the loop
    variable overwrites it, the result is the same for any two arguments,
    and the root handed to Tornado's validation is always one of the
    handler's own roots. *)
Theorem validate_ignores_root_argument
    (super_validate_absolute_path : string -> string -> M string)
    (self_root : list string) (root root' absolute_path : string)
    (st : state) :
  self_root <> [] ->
  FileFindHandler.validate_absolute_path super_validate_absolute_path
    self_root root absolute_path st
  = FileFindHandler.validate_absolute_path super_validate_absolute_path
      self_root root' absolute_path st
  /\ In (FileFindHandler.loop_root self_root root absolute_path) self_root.
Proof.
  intros Hne. destruct self_root as [|r0 rest]; [done|]. split.
  - unfold FileFindHandler.validate_absolute_path. reflexivity.
  - destruct (loop_root_member (r0 :: rest) root absolute_path) as [H|H];
      [|exact H].
    simpl in *.
    destruct (Py.startswith (absolute_path +:+ String os_sep "") r0);
      [by left|].
    destruct (loop_root_member rest r0 absolute_path) as [->|H'];
      [by left|by right].
Qed.

Lemma validate_ignores_root_argument_witness :
  FileFindHandler.validate_absolute_path (fun root path => ret root)
    ["/srv/static/"] "/etc" "/srv/static/base.js" initial_state
  = FileFindHandler.validate_absolute_path (fun root path => ret root)
      ["/srv/static/"] "" "/srv/static/base.js" initial_state.
Proof.
  apply (validate_ignores_root_argument (fun root path => ret root)
           ["/srv/static/"] "/etc" "" "/srv/static/base.js" initial_state).
  discriminate.
Defined.

(** ** FileFindHandler: the cache over a run of requests *)

Section CacheInvariants.

Variable isfile : string -> bool.
Variable path_join : string -> string -> string.
Variable abspath : string -> string.

(** One call: entries stay, a new entry is a file found under one of the
    call's roots, and at most one search is made. *)
Lemma get_absolute_path_step (roots : list string) (path : string)
    (cls : FileFindHandler.class_state) :
  let cls' :=
    (FileFindHandler.get_absolute_path isfile path_join abspath
       roots path cls).2 in
  (forall k v,
      FileFindHandler._static_paths cls !! k = Some v ->
      FileFindHandler._static_paths cls' !! k = Some v)
  /\ (forall k v,
         FileFindHandler._static_paths cls' !! k = Some v ->
         FileFindHandler._static_paths cls !! k = Some v
         \/ (k = path
             /\ exists root,
                 In root roots /\ isfile (path_join root k) = true
                 /\ v = abspath (path_join root k)))
  /\ (exists more,
         FileFindHandler.searches cls'
         = (FileFindHandler.searches cls ++ more)%list
         /\ length more <= 1).
Proof.
  unfold FileFindHandler.get_absolute_path.
  destruct (FileFindHandler._static_paths cls !! path) as [cached|] eqn:Hc.
  - simpl. split; [done|]. split; [by left|].
    exists []. split; [by rewrite app_nil_r|simpl; lia].
  - destruct (FileFindHandler.filefind isfile path_join path roots)
      as [found|] eqn:Hf; simpl.
    + split; [|split].
      * intros k v Hk. destruct (decide (path = k)) as [<-|Hne];
          [congruence|]. by rewrite lookup_insert_ne.
      * intros k v. destruct (decide (path = k)) as [<-|Hne].
        -- rewrite lookup_insert_eq. intros [= <-]. right. split; [done|].
           destruct (filefind_first_match isfile path_join _ _ _ Hf)
             as (before & root & after & -> & -> & Hfile & _).
           exists root. split; [|done].
           apply in_or_app. right. by left.
        -- rewrite lookup_insert_ne by done. by left.
      * exists [(path, roots)]. split; [done|simpl; lia].
    + split; [done|]. split; [by left|].
      exists [(path, roots)]. split; [done|simpl; lia].
Qed.

Lemma resolve_all_cons (roots : list string) (path : string)
    (calls : list (list string * string))
    (cls : FileFindHandler.class_state) :
  resolve_all isfile path_join abspath ((roots, path) :: calls) cls
  = resolve_all isfile path_join abspath calls
      (FileFindHandler.get_absolute_path isfile path_join abspath
         roots path cls).2.
Proof. reflexivity. Qed.

(** X9. Over any run of [get_absolute_path] calls the cache is
    append-only and holds only files that were found: an entry, once made,
    is never changed or dropped; every entry made during the run maps a
    requested path to the absolute path of a file that exists under one of
    the roots of a call for that path; and the run makes at most one
    directory search per call. *)
Theorem cache_append_only_and_sound (calls : list (list string * string))
    (cls : FileFindHandler.class_state) :
  let cls' := resolve_all isfile path_join abspath calls cls in
  (forall k v,
      FileFindHandler._static_paths cls !! k = Some v ->
      FileFindHandler._static_paths cls' !! k = Some v)
  /\ (forall k v,
         FileFindHandler._static_paths cls' !! k = Some v ->
         FileFindHandler._static_paths cls !! k = Some v
         \/ exists roots root,
             In (roots, k) calls /\ In root roots
             /\ isfile (path_join root k) = true
             /\ v = abspath (path_join root k))
  /\ (exists more,
         FileFindHandler.searches cls'
         = (FileFindHandler.searches cls ++ more)%list
         /\ length more <= length calls).
Proof.
  revert cls. induction calls as [|[roots path] calls IH]; intros cls.
  - simpl. split; [done|]. split; [by left|].
    exists []. split; [by rewrite app_nil_r|simpl; lia].
  - rewrite resolve_all_cons.
    destruct (get_absolute_path_step roots path cls)
      as (Hm & Hs & more1 & Hl1 & Hn1).
    destruct (IH (FileFindHandler.get_absolute_path isfile path_join abspath
                    roots path cls).2) as (Hm' & Hs' & more2 & Hl2 & Hn2).
    cbv zeta in *.
    split; [|split].
    + intros k v Hk. by apply Hm', Hm.
    + intros k v Hk. destruct (Hs' k v Hk) as [Hold|Hnew].
      * destruct (Hs k v Hold) as [?|[-> (root & Hin & Hfile & ->)]];
          [by left|].
        right. exists roots, root. repeat split; try done. by left.
      * right. destruct Hnew as (roots' & root & Hin & Hrest).
        exists roots', root. split; [by right|exact Hrest].
    + exists (more1 ++ more2)%list. split.
      * rewrite Hl2, Hl1. by rewrite <- app_assoc.
      * rewrite List.length_app. simpl. lia.
Qed.

Lemma filefind_none_iff (path : string) (roots : list string) :
  (forall r, In r roots -> isfile (path_join r path) = false) ->
  FileFindHandler.filefind isfile path_join path roots = None.
Proof.
  induction roots as [|r0 rest IH]; [done|]. intros H. simpl.
  rewrite (H r0) by (by left). apply IH. intros r Hr. apply H. by right.
Qed.

(** X10. A path that is not in the cache and that no root has ends in HTTP
    404: [get_absolute_path] answers the empty sentinel, on which
    [validate_absolute_path] raises [HTTPError(404)] without consulting
    Tornado's validation or touching the response. *)
Theorem unresolved_path_is_not_found
    (super_validate_absolute_path : string -> string -> M string)
    (self_root roots : list string) (root path : string)
    (cls : FileFindHandler.class_state) (st : state) :
  FileFindHandler._static_paths cls !! path = None ->
  (forall r, In r roots -> isfile (path_join r path) = false) ->
  FileFindHandler.validate_absolute_path super_validate_absolute_path
    self_root root
    (FileFindHandler.get_absolute_path isfile path_join abspath
       roots path cls).1 st
  = (Raise (HTTPError 404 None [] None), st).
Proof.
  intros Hmiss Hnone. unfold FileFindHandler.get_absolute_path.
  rewrite Hmiss, (filefind_none_iff _ _ Hnone). reflexivity.
Qed.

End CacheInvariants.

Lemma unresolved_path_is_not_found_witness :
  FileFindHandler.validate_absolute_path
    (fun _ absolute_path => ret absolute_path)
    ["/srv/static/"] ""
    (FileFindHandler.get_absolute_path (fun _ => false) String.append id
       ["/srv/static/"] "missing.js" FileFindHandler.empty_class).1
    initial_state
  = (Raise (HTTPError 404 None [] None), initial_state).
Proof.
  apply (unresolved_path_is_not_found (fun _ => false) String.append id
           (fun _ absolute_path => ret absolute_path)
           ["/srv/static/"] ["/srv/static/"] "" "missing.js"
           FileFindHandler.empty_class initial_state).
  - apply lookup_empty.
  - reflexivity.
Defined.

(** ** The [json_errors] decorator: what gets through *)

(** X11. A method wrapped by [json_errors] lets no [Exception] out: if the
    wrapper raises at all, what it raises is not an [Exception] (a
    [KeyboardInterrupt], say), it is what the method raised, and the
    response is as the method left it. *)
Theorem json_errors_lets_no_exception_out {A : Type}
    (json_dumps : JsonErrors.json_object -> string)
    (format_tb format_exception_only : exn -> list string)
    (method : M A) (st st' : state) (e : exn) :
  JsonErrors.json_errors json_dumps format_tb format_exception_only method st
  = (Raise e, st') ->
  is_Exception e = false /\ method st = (Raise e, st').
Proof.
  unfold JsonErrors.json_errors.
  destruct (method st) as [[result|e0] st0]; [discriminate|].
  destruct e0; try discriminate.
  by intros [= <- <-].
Qed.

Lemma json_errors_lets_no_exception_out_witness :
  is_Exception (NonException "KeyboardInterrupt") = false
  /\ raise (A := unit) (NonException "KeyboardInterrupt") initial_state
     = (Raise (NonException "KeyboardInterrupt"), initial_state).
Proof.
  apply (json_errors_lets_no_exception_out (fun _ => "") (fun _ => [])
           (fun _ => [])
           (raise (A := unit) (NonException "KeyboardInterrupt"))
           initial_state initial_state (NonException "KeyboardInterrupt")).
  reflexivity.
Defined.

(** X12. Answering an error, the wrapper changes the status and finishes
    the response, and writes one log entry; it sets no header (no
    [Content-Type] for the JSON body either), writes no chunk, clears no
    cookie and issues no redirect beyond what the method had done. *)
Theorem json_errors_sets_no_header {A : Type}
    (json_dumps : JsonErrors.json_object -> string)
    (format_tb format_exception_only : exn -> list string)
    (method : M A) (st st1 : state) (e : exn) :
  method st = (Raise e, st1) ->
  is_Exception e = true ->
  exists st2 entry body,
    JsonErrors.json_errors json_dumps format_tb format_exception_only
      method st
    = (Return None, st2)
    /\ headers st2 = headers st1
    /\ written st2 = written st1
    /\ cleared_cookies st2 = cleared_cookies st1
    /\ redirected st2 = redirected st1
    /\ log st2 = (log st1 ++ [entry])%list
    /\ finished st2 = Some body.
Proof.
  intros Hm He. unfold JsonErrors.json_errors. rewrite Hm.
  destruct e; try discriminate He;
    eexists _, _, _; (split; [reflexivity|]); by repeat split.
Qed.

Lemma json_errors_sets_no_header_witness :
  exists st2,
    JsonErrors.json_errors (fun _ => "{}") (fun _ => []) (fun _ => [])
      (set_header "Content-Type" "text/plain" ;;;
       raise (A := unit) (OtherException "ValueError" "bad"))
      initial_state
    = (Return None, st2)
    /\ headers st2 = {[ "Content-Type" := "text/plain" ]}.
Proof.
  destruct (json_errors_sets_no_header (fun _ => "{}") (fun _ => [])
              (fun _ => [])
              (set_header "Content-Type" "text/plain" ;;;
               raise (A := unit) (OtherException "ValueError" "bad"))
              initial_state
              (set_header "Content-Type" "text/plain" initial_state).2
              (OtherException "ValueError" "bad") eq_refl eq_refl)
    as (st2 & entry & body & Hrun & Hh & _).
  exists st2. split; [exact Hrun|exact Hh].
Defined.

(** ** IPythonHandler: the template fallback of [write_error] *)

(** X13. With [exc_info], [write_error] sets [Content-Type: text/html]
    and renders the template named after the status code. Only
    [TemplateNotFound] makes it fall back: it then logs a debug line and
    renders [error.html] with the same namespace, and writes that page.
    Any other exception of the first rendering goes on to the caller with
    nothing written by [write_error]. *)
Theorem write_error_template_fallback (responses : Z -> option string)
    (percent_format : string -> list string -> option string)
    (render_template : string -> IPythonHandler.namespace -> M string)
    (status_code : Z) (e : exn) (st : state) :
  let write_error :=
    IPythonHandler.write_error responses percent_format render_template in
  let ns :=
    {| IPythonHandler.ns_status_code := status_code;
       IPythonHandler.ns_status_message :=
         (let reason := IPythonHandler.getattr_reason e in
          if IPythonHandler.truthy reason then reason
          else default "Unknown HTTP Error" (responses status_code));
       IPythonHandler.ns_message :=
         IPythonHandler.custom_message percent_format "" e;
       IPythonHandler.ns_exception := e |} in
  let st1 := (set_header "Content-Type" "text/html" st).2 in
  (forall name st2 html st3,
      render_template (pretty status_code +:+ ".html") ns st1
      = (Raise (TemplateNotFound name), st2) ->
      render_template "error.html" ns
        (log_msg "debug" "No template for %d" [pretty status_code] st2).2
      = (Return html, st3) ->
      write_error status_code (Some e) st = write html st3)
  /\ (forall e' st2,
         render_template (pretty status_code +:+ ".html") ns st1
         = (Raise e', st2) ->
         IPythonHandler.is_TemplateNotFound e' = false ->
         write_error status_code (Some e) st = (Raise e', st2)).
Proof.
  intros write_error ns st1. subst write_error.
  unfold IPythonHandler.write_error, IPythonHandler.read_local.
  unfold bind, ret, try_except. fold ns.
  change (set_header "Content-Type" "text/html" st) with (Return tt, st1).
  split.
  - intros name st2 html st3 H1 H2. rewrite H1.
    change (IPythonHandler.is_TemplateNotFound (TemplateNotFound name))
      with true.
    change (log_msg "debug" "No template for %d" [pretty status_code] st2)
      with (Return tt,
            (log_msg "debug" "No template for %d" [pretty status_code]
               st2).2).
    cbv beta iota. rewrite H2. reflexivity.
  - intros e' st2 H1 He'. rewrite H1, He'. reflexivity.
Qed.

Lemma write_error_template_fallback_witness :
  let render (name : string) (ns : IPythonHandler.namespace) : M string :=
    if String.eqb name "error.html"
    then ret ("error page " +:+ IPythonHandler.ns_status_message ns)
    else raise (TemplateNotFound name) in
  written
    (IPythonHandler.write_error (fun _ => Some "I'm a teapot")
       (fun fmt _ => Some fmt) render 418 (Some (HTTPError_code 418))
       initial_state).2
  = ["error page I'm a teapot"].
Proof.
  intros render.
  rewrite (proj1 (write_error_template_fallback
                    (fun _ => Some "I'm a teapot") (fun fmt _ => Some fmt)
                    render 418 (HTTPError_code 418) initial_state)
             "418.html" _ "error page I'm a teapot" _ eq_refl eq_refl).
  reflexivity.
Defined.

(** ** FileFindHandler: the roots of an instance *)

Lemma endswith_char_app (s : string) (c : ascii) :
  Py.endswith_char (s +:+ String c "") c = true.
Proof.
  induction s as [|a s IH]; [simpl; apply Ascii.eqb_refl|].
  rewrite app_cons. destruct s as [|b s]; [simpl; apply Ascii.eqb_refl|].
  exact IH.
Qed.

(** X14. [initialize] makes one root per given path (one root for a
    single string), in order, each the expanded absolute path followed by
    the separator. Every root therefore ends with the separator, and the
    containment test against it accepts exactly the root directory itself
    and the paths that begin with the root. *)
Theorem initialize_roots_are_directories
    (abspath expanduser : string -> string)
    (path : FileFindHandler.path_arg) (default_filename : option string) :
  let self := FileFindHandler.initialize abspath expanduser path
                default_filename in
  length (FileFindHandler.root self)
  = match path with
    | FileFindHandler.OnePath _ => 1
    | FileFindHandler.Paths ps => length ps
    end
  /\ (forall r,
         In r (FileFindHandler.root self) ->
         exists p,
           match path with
           | FileFindHandler.OnePath q => p = q
           | FileFindHandler.Paths ps => In p ps
           end
           /\ r = abspath (expanduser p) +:+ "/"
           /\ Py.endswith_char r "/" = true
           /\ (forall absolute_path,
                  Py.startswith (absolute_path +:+ "/") r = true
                  <-> absolute_path = abspath (expanduser p)
                      \/ Py.startswith absolute_path r = true)).
Proof.
  intros self. subst self. unfold FileFindHandler.initialize.
  cbn [FileFindHandler.root]. split.
  - destruct path; [reflexivity|apply List.length_map].
  - intros r Hr. apply in_map_iff in Hr as (p & <- & Hp).
    exists p. change (String os_sep "") with "/".
    split; [|split; [reflexivity|split]].
    + destruct path; [|exact Hp]. by destruct Hp as [<-|[]].
    + apply endswith_char_app.
    + intros absolute_path. apply startswith_dir_iff.
Qed.

Lemma initialize_roots_are_directories_witness :
  FileFindHandler.root
    (FileFindHandler.initialize id id
       (FileFindHandler.OnePath "/srv/static") None)
  = ["/srv/static/"]
  /\ exists p,
      p = "/srv/static"
      /\ "/srv/static/" = id (id p) +:+ "/"
      /\ Py.endswith_char "/srv/static/" "/" = true
      /\ (forall absolute_path,
             Py.startswith (absolute_path +:+ "/") "/srv/static/" = true
             <-> absolute_path = id (id p)
                 \/ Py.startswith absolute_path "/srv/static/" = true).
Proof.
  split; [reflexivity|].
  apply (proj2 (initialize_roots_are_directories id id
                  (FileFindHandler.OnePath "/srv/static") None)
           "/srv/static/").
  by left.
Defined.

(** ** AuthenticatedFileHandler: name and path of a request *)

Lemma index_rindex_none (c : ascii) (s : string) :
  Py.index_of c s = None <-> Py.rindex_of c s = None.
Proof.
  induction s as [|a s IH]; [done|]. simpl.
  destruct (Ascii.eqb a c).
  - split; [done|]. by destruct (Py.rindex_of c s).
  - destruct (Py.index_of c s), (Py.rindex_of c s); split; try done;
      intros _; exfalso; destruct IH as [IH1 IH2];
      try (by discriminate IH1); by discriminate IH2.
Qed.

(** [split_path] by the position of the last separator. *)
Lemma split_path_cases (path : string) :
  AuthenticatedFileHandler.split_path path
  = match Py.rindex_of "/" path with
    | None => (path, "")
    | Some i => (Py.slice_from (S i) path, Py.slice_to i path)
    end.
Proof.
  unfold AuthenticatedFileHandler.split_path, Py.find, Py.rfind.
  destruct (Py.rindex_of "/" path) as [i|] eqn:Hr.
  - destruct (Py.index_of "/" path) as [j|] eqn:Hi.
    + assert ((Z.of_nat j >? -1)%Z = true) as -> by (apply Z.gtb_lt; lia).
      replace (Z.to_nat (Z.of_nat i + 1)) with (S i) by lia.
      by rewrite Nat2Z.id.
    + apply index_rindex_none in Hi. congruence.
  - apply index_rindex_none in Hr. by rewrite Hr.
Qed.

(** The last separator cuts the string in two, and none follows it. *)
Lemma rindex_of_cut (c : ascii) (s : string) (i : nat) :
  Py.rindex_of c s = Some i ->
  s = Py.slice_to i s +:+ String c (Py.slice_from (S i) s)
  /\ Py.rindex_of c (Py.slice_from (S i) s) = None.
Proof.
  revert i. induction s as [|a s IH]; intros i; [discriminate|].
  simpl Py.rindex_of. destruct (Py.rindex_of c s) as [j|] eqn:Hr.
  - intros [= <-]. destruct (IH j eq_refl) as [Hs Hn].
    split; [|exact Hn].
    change (Py.slice_to (S j) (String a s)) with (String a (Py.slice_to j s)).
    change (Py.slice_from (S (S j)) (String a s))
      with (Py.slice_from (S j) s).
    rewrite app_cons. by f_equal.
  - destruct (Ascii.eqb a c) eqn:E; [|discriminate].
    intros [= <-]. apply Ascii.eqb_eq in E as ->. by split.
Qed.

(** X15. [AuthenticatedFileHandler.get] cuts the requested path at its
    last ['/']: the name holds no ['/']; a path without ['/'] is all name,
    under the empty path; and otherwise path, ['/'] and name put together
    give the requested path back. *)
Theorem split_path_round_trip (path : string) :
  let name := (AuthenticatedFileHandler.split_path path).1 in
  let parent := (AuthenticatedFileHandler.split_path path).2 in
  Py.index_of "/" name = None
  /\ match Py.index_of "/" path with
     | None => name = path /\ parent = ""
     | Some _ => path = parent +:+ "/" +:+ name
     end.
Proof.
  intros name parent. subst name parent. rewrite split_path_cases.
  destruct (Py.rindex_of "/" path) as [i|] eqn:Hr.
  - destruct (rindex_of_cut _ _ _ Hr) as [Hcut Hnone]. simpl. split.
    + by apply index_rindex_none.
    + destruct (Py.index_of "/" path) eqn:Hi; [exact Hcut|].
      apply index_rindex_none in Hi. congruence.
  - simpl. apply index_rindex_none in Hr. rewrite Hr. by repeat split.
Qed.

Lemma concat_cons_head (sep : string) (a : ascii) (w : string)
    (rest : list string) :
  String.concat sep (String a w :: rest)
  = String a (String.concat sep (w :: rest)).
Proof. destruct rest; reflexivity. Qed.

(** The same cut, read off the list of segments. *)
Lemma rsplit_segments (c : ascii) (s : string) :
  match Py.rindex_of c s with
  | None => Py.split c s = [s]
  | Some i =>
      List.last (Py.split c s) "" = Py.slice_from (S i) s
      /\ removelast (Py.split c s) <> []
      /\ String.concat (String c "") (removelast (Py.split c s))
         = Py.slice_to i s
  end.
Proof.
  induction s as [|a s IH]; [reflexivity|].
  simpl Py.rindex_of. simpl Py.split.
  destruct (Py.rindex_of c s) as [i|] eqn:Hr.
  - destruct IH as (Hlast & Hne & Hjoin).
    destruct (Py.split c s) as [|w [|w' ws]] eqn:Hs; [done|done|].
    change (Py.slice_from (S (S i)) (String a s)) with (Py.slice_from (S i) s).
    change (Py.slice_to (S i) (String a s)) with (String a (Py.slice_to i s)).
    destruct (Ascii.eqb a c) eqn:E.
    + apply Ascii.eqb_eq in E as ->. split; [exact Hlast|].
      split; [done|].
      change (removelast ("" :: w :: w' :: ws))
        with ("" :: removelast (w :: w' :: ws)).
      change (removelast (w :: w' :: ws)) with (w :: removelast (w' :: ws))
        in *.
      change (String.concat (String c "") ("" :: w :: removelast (w' :: ws)))
        with (String c (String.concat (String c "")
                          (w :: removelast (w' :: ws)))).
      by rewrite Hjoin.
    + split; [exact Hlast|]. split; [done|].
      change (removelast (String a w :: w' :: ws))
        with (String a w :: removelast (w' :: ws)).
      change (removelast (w :: w' :: ws)) with (w :: removelast (w' :: ws))
        in Hjoin.
      by rewrite concat_cons_head, Hjoin.
  - rewrite IH. destruct (Ascii.eqb a c) eqn:E; [|reflexivity].
    by repeat split.
Qed.

(** X16. The two file handlers cut a path alike:
    [AuthenticatedFileHandler.get], with [find], [rfind] and slices, gets
    the name and path that [FilesRedirectHandler.get] gets from
    [split('/')], its last part and the rest joined again. *)
Theorem file_handlers_split_alike (path : string) :
  AuthenticatedFileHandler.split_path path
  = (Py.last_part (Py.split "/" path),
     Py.join "/" (Py.but_last (Py.split "/" path))).
Proof.
  rewrite split_path_cases.
  unfold Py.last_part, Py.but_last, Py.join.
  pose proof (rsplit_segments "/" path) as H.
  destruct (Py.rindex_of "/" path) as [i|].
  - destruct H as (-> & _ & Hjoin). by rewrite Hjoin.
  - by rewrite H.
Qed.

(** ** AuthenticatedFileHandler: serving a file *)

(** X17. [AuthenticatedFileHandler.get] sets its headers before it asks
    the contents manager for the file: [Content-Disposition] always, as an
    attachment under the file's name, and [Content-Type: application/json]
    when the name ends with [.ipynb] (any other name leaves the content
    type alone). When the manager returns the content, it is written as one
    chunk; when the manager raises, the exception goes on to the caller,
    nothing written but the headers already set. *)
Theorem file_get_sets_headers_first
    (get_model_content : string -> string -> M string)
    (path : string) (st : state) :
  let name := (AuthenticatedFileHandler.split_path path).1 in
  let parent := (AuthenticatedFileHandler.split_path path).2 in
  let disposition :=
    "attachment; filename=" +:+ AuthenticatedFileHandler.dquote +:+ name
      +:+ AuthenticatedFileHandler.dquote in
  let st1 :=
    (set_header "Content-Disposition" disposition
       (if Py.endswith name ".ipynb"
        then (set_header "Content-Type" "application/json" st).2
        else st)).2 in
  headers st1 !! "Content-Disposition" = Some disposition
  /\ headers st1 !! "Content-Type"
     = (if Py.endswith name ".ipynb" then Some "application/json"
        else headers st !! "Content-Type")
  /\ written st1 = written st
  /\ (forall content st2,
         get_model_content name parent st1 = (Return content, st2) ->
         AuthenticatedFileHandler.get get_model_content path st
         = (Return tt, (write content st2).2))
  /\ (forall e st2,
         get_model_content name parent st1 = (Raise e, st2) ->
         AuthenticatedFileHandler.get get_model_content path st
         = (Raise e, st2)).
Proof.
  intros name parent disposition st1.
  unfold AuthenticatedFileHandler.get.
  replace (AuthenticatedFileHandler.split_path path) with (name, parent)
    by (subst name parent;
        by destruct (AuthenticatedFileHandler.split_path path)).
  cbv beta iota.
  split; [apply lookup_insert_eq|]. split; [|split; [|split]].
  - subst st1. cbn [set_header snd headers].
    rewrite lookup_insert_ne by discriminate.
    destruct (Py.endswith name ".ipynb"); [apply lookup_insert_eq|done].
  - subst st1. by destruct (Py.endswith name ".ipynb").
  - intros content st2 H. unfold bind.
    assert (Hh :
      (if Py.endswith name ".ipynb"
       then set_header "Content-Type" "application/json"
       else ret tt) st
      = (Return tt,
         if Py.endswith name ".ipynb"
         then (set_header "Content-Type" "application/json" st).2
         else st)) by (by destruct (Py.endswith name ".ipynb")).
    rewrite Hh. fold disposition.
    change (set_header "Content-Disposition" disposition
              (if Py.endswith name ".ipynb"
               then (set_header "Content-Type" "application/json" st).2
               else st))
      with (Return tt, st1).
    cbv beta iota. rewrite H. reflexivity.
  - intros e st2 H. unfold bind.
    assert (Hh :
      (if Py.endswith name ".ipynb"
       then set_header "Content-Type" "application/json"
       else ret tt) st
      = (Return tt,
         if Py.endswith name ".ipynb"
         then (set_header "Content-Type" "application/json" st).2
         else st)) by (by destruct (Py.endswith name ".ipynb")).
    rewrite Hh. fold disposition.
    change (set_header "Content-Disposition" disposition
              (if Py.endswith name ".ipynb"
               then (set_header "Content-Type" "application/json" st).2
               else st))
      with (Return tt, st1).
    cbv beta iota. rewrite H. reflexivity.
Qed.

Lemma file_get_sets_headers_first_witness :
  let cm (name path : string) : M string :=
    if String.eqb name "nb.ipynb" && String.eqb path "work"
    then ret "{}"
    else raise (HTTPError 404 (Some "No such file") [] None) in
  written (AuthenticatedFileHandler.get cm "work/nb.ipynb" initial_state).2
  = ["{}"].
Proof.
  intros cm.
  rewrite (proj1 (proj2 (proj2 (proj2
             (file_get_sets_headers_first cm "work/nb.ipynb" initial_state))))
             "{}" _ eq_refl).
  reflexivity.
Defined.

(** ** IPythonHandler: the JSON body of a request *)

Lemma rstrip_space_blank (s : string) :
  Py.all_chars Ascii.is_space s = true -> Py.rstrip_space s = "".
Proof.
  induction s as [|a s IH]; [done|]. simpl.
  intros [Ha Hs]%andb_prop. by rewrite (IH Hs), Ha.
Qed.

(** X18. [get_json_body] returns [None] for an empty body without parsing
    anything. Any other body is stripped of surrounding white space and
    decoded; a decoding error is raised as it is, the decoding standing
    outside the [try]. What [json.loads] returns is returned; an
    [Exception] it raises becomes [HTTPError(400)] with the message
    ['Invalid JSON in body of request'], after a debug and an error line in
    the log. A body of white space only is not empty: it is parsed as the
    empty text. *)
Theorem get_json_body_contract (Model : Type)
    (decode_utf8 : string -> result string)
    (json_loads : string -> result Model)
    (request_body : string) (st : state) :
  let get_json_body :=
    IPythonHandler.get_json_body Model decode_utf8 json_loads in
  get_json_body "" st = (Return None, st)
  /\ (request_body <> "" ->
      (forall e,
          decode_utf8 (Py.strip request_body) = Raise e ->
          get_json_body request_body st = (Raise e, st))
      /\ (forall body model,
             decode_utf8 (Py.strip request_body) = Return body ->
             json_loads body = Return model ->
             get_json_body request_body st = (Return (Some model), st))
      /\ (forall body e,
             decode_utf8 (Py.strip request_body) = Return body ->
             json_loads body = Raise e ->
             is_Exception e = true ->
             exists st',
               get_json_body request_body st
               = (Raise (HTTPError 400
                           (Some "Invalid JSON in body of request") [] None),
                  st')
               /\ log st'
                  = (log st ++ [Log "debug" "Bad JSON: %r" [body];
                                Log "error" "Couldn't parse JSON" []])%list
               /\ headers st' = headers st /\ status st' = status st
               /\ written st' = written st /\ finished st' = finished st)
      /\ (Py.all_chars Ascii.is_space request_body = true ->
          Py.strip request_body = "")).
Proof.
  intros get_json_body. subst get_json_body. split; [reflexivity|].
  intros Hne. unfold IPythonHandler.get_json_body.
  destruct (String.eqb_spec request_body ""); [done|].
  unfold bind, try_except, ret. split; [|split; [|split]].
  - by intros e ->.
  - by intros body model -> ->.
  - intros body e -> -> ->. eexists. split; [reflexivity|].
    cbn. rewrite <- app_assoc. by repeat split.
  - intros Hblank. unfold Py.strip. by rewrite rstrip_space_blank.
Qed.

Lemma get_json_body_contract_witness :
  let json_loads (text : string) : result nat :=
    if String.eqb text "1" then Return 1
    else Raise (OtherException "ValueError" "No JSON object could be decoded")
  in
  exists st',
    IPythonHandler.get_json_body nat Return json_loads "  " initial_state
    = (Raise (HTTPError 400 (Some "Invalid JSON in body of request") [] None),
       st')
    /\ log st' = [Log "debug" "Bad JSON: %r" [""];
                  Log "error" "Couldn't parse JSON" []].
Proof.
  intros json_loads.
  destruct (proj1 (proj2 (proj2 (proj2
              (get_json_body_contract nat Return json_loads "  "
                 initial_state) ltac:(discriminate))))
              "" (OtherException "ValueError" "No JSON object could be decoded")
              eq_refl eq_refl eq_refl)
    as (st' & Hrun & Hlog & _).
  exists st'. split; [exact Hrun|exact Hlog].
Defined.

(** ** IPythonHandler: which origin header counts *)

(** X19. A request that has an [Origin] header is judged on it alone: its
    [Sec-Websocket-Origin] header, whatever it says, changes nothing in
    what [set_default_headers] does. *)
Theorem origin_header_takes_precedence
    (refusal : string -> string -> option exn) (s : settings) (r : request)
    (websocket_origin : string) (st : state) :
  is_Some (req_headers r !! "Origin") ->
  IPythonHandler.set_default_headers refusal s
    (with_headers r
       (<["Sec-Websocket-Origin" := websocket_origin]> (req_headers r))) st
  = IPythonHandler.set_default_headers refusal s r st.
Proof.
  intros [origin Ho].
  unfold IPythonHandler.set_default_headers,
    IPythonHandler.set_cors_headers, IPythonHandler.get_origin.
  cbn [with_headers req_headers].
  rewrite lookup_insert_ne by discriminate. by rewrite Ho.
Qed.

Lemma origin_header_takes_precedence_witness :
  let pat : pattern := String.eqb "http://a.com" in
  let s := {| s_headers := None; s_cookie_name := None; s_password := None;
              s_allow_origin := None; s_allow_origin_pat := Some pat;
              s_allow_credentials := None; s_base_url := None |} in
  let r := mkRequest "localhost:8888" "/" "/"
             {[ "Origin" := "http://evil.com" ]} (fun _ => None) in
  IPythonHandler.set_default_headers accepts_all s
    (with_headers r
       (<["Sec-Websocket-Origin" := "http://a.com"]> (req_headers r)))
    initial_state
  = IPythonHandler.set_default_headers accepts_all s r initial_state.
Proof.
  intros pat s r.
  apply (origin_header_takes_precedence accepts_all s r "http://a.com"
           initial_state).
  exists "http://evil.com". subst r. cbn [req_headers].
  apply lookup_singleton_eq.
Defined.

(** ** FilesRedirectHandler: a [files] segment among the directories *)

(** X20. When [files] is one of the directory segments of a path whose file
    is missing at the literal place, the retry of
    [FilesRedirectHandler.get] asks for the same name under the parent with
    its first [files] segment taken out; it redirects to that [/files/]
    URL when the file is there and raises HTTP 404 when it is not. *)
Theorem files_retry_drops_directory_segment
    (path_exists : string -> bool) (file_exists : string -> string -> bool)
    (url_path_join : list string -> string) (url_escape : string -> string)
    (s : settings) (r : request) (path : string) (st : state) :
  let get :=
    FilesRedirectHandler.get path_exists file_exists url_path_join url_escape
      s r path in
  let parts := Py.split "/" path in
  let name := Py.last_part parts in
  let parent := Py.join "/" (Py.but_last parts) in
  let parent' := Py.join "/" (Py.remove_first "files" (Py.but_last parts)) in
  path_exists path = false ->
  file_exists name parent = false ->
  Py.contains "files" (Py.but_last parts) = true ->
  (file_exists name parent' = true ->
   exists st',
     get st = (Return tt, st')
     /\ redirected st'
        = Some (url_escape
                  (url_path_join
                     [IPythonHandler.base_url s; "files"; parent'; name])))
  /\ (file_exists name parent' = false ->
      exists st',
        get st = (Raise (HTTPError 404 None [] None), st')
        /\ redirected st' = redirected st).
Proof.
  intros get parts name parent parent' Hdir Hfile Hin.
  subst get. unfold FilesRedirectHandler.get.
  fold parts. fold name. fold parent.
  rewrite Hdir, Hfile, (contains_but_last _ _ Hin).
  destruct (remove_first_keeps_name "files" parts Hin) as [Hbl _].
  rewrite Hbl. fold parent'. cbn [negb andb].
  unfold bind, ret, log_msg, redirect, raise. cbv beta iota.
  split; intros Hretry; rewrite Hretry; cbn [negb]; cbv beta iota;
    eexists; split; reflexivity.
Qed.

Lemma files_retry_drops_directory_segment_witness :
  let path_exists (p : string) := false in
  let file_exists (name path : string) :=
    String.eqb name "fig.png" && String.eqb path "work" in
  exists st',
    FilesRedirectHandler.get path_exists file_exists (String.concat ",") id
      empty_settings
      (mkRequest "localhost:8888" "/work/files/fig.png" "/work/files/fig.png"
         ∅ (fun _ => None))
      "work/files/fig.png" initial_state
    = (Return tt, st')
    /\ redirected st' = Some "/,files,work,fig.png".
Proof.
  intros path_exists file_exists.
  apply (files_retry_drops_directory_segment path_exists file_exists
           (String.concat ",") id empty_settings
           (mkRequest "localhost:8888" "/work/files/fig.png"
              "/work/files/fig.png" ∅ (fun _ => None))
           "work/files/fig.png" initial_state);
    reflexivity.
Defined.
